(** * Elk-Maven (YouTube University): schema and web client, embedded in Rocq

    The development follows the repository's sources:

    - [Js]      JavaScript strings as sequences of UTF-16 code units, the
                 array methods and the fragment of the DOM that
                 [static/js/app.js] relies on;
    - [App]     [static/js/app.js]: [escapeHtml], [addMessageToUI],
                 [removeAttachment];
    - [Canvas]  the canvas markup tool: [canvasState] and the toolbar
                 handlers;
    - [Schema]  [database/schema.sql] and the bias and optimization tables
                 of [database/migrations/002_web_ui.sql]: tables,
                 constraints, cascades and the FTS triggers, with the
                 statements that write them. *)

From Stdlib Require Import Floats.PrimFloat.
From stdpp Require Import gmap strings list fin_maps.

Local Open Scope Z_scope.

(* ===================================================================== *)
(** * JavaScript values used by the web client *)
(* ===================================================================== *)

Module Js.

(** A JavaScript string is a sequence of UTF-16 code units. *)
Definition jsstring : Type := list Z.

(** A source literal (ASCII only), read as code units. *)
Definition lit (s : string) : jsstring :=
  map (fun c => Z.of_nat (Ascii.nat_of_ascii c)) (String.list_ascii_of_string s).

(** Code units that the sources name. *)
Definition AMP : Z := 38.
Definition LT : Z := 60.
Definition GT : Z := 62.
Definition NBSP : Z := 160.
Definition DQUOTE : Z := 34.
Definition NEWLINE : Z := 10.
Definition SLASH : Z := 47.

(** [Array.prototype.push]: the element goes to the end. *)
Definition push {A} (l : list A) (x : A) : list A := l ++ [x].

(** [Array.prototype.pop]: the last element (or [undefined], here [None])
    and the array without it. *)
Definition pop {A} (l : list A) : option A * list A :=
  (last l, removelast l).

(** [Array.prototype.join('')] on an array of strings. *)
Definition join_empty (parts : list jsstring) : jsstring := concat parts.

(** [String.prototype.split(sep)] for a one-code-unit separator: [cur] is
    the segment being read (reversed). *)
Fixpoint split_from (sep : Z) (cur : jsstring) (s : jsstring) : list jsstring :=
  match s with
  | [] => [reverse cur]
  | c :: s' =>
      if Z.eqb c sep then reverse cur :: split_from sep [] s'
      else split_from sep (c :: cur) s'
  end.

Definition split (sep : Z) (s : jsstring) : list jsstring := split_from sep [] s.

(** ** The DOM fragment behind [escapeHtml] *)

#[local] Unset Elimination Schemes.
Inductive node : Type :=
  | TextNode (data : jsstring)
  | ElementNode (tag : jsstring) (children : list node).
#[local] Set Elimination Schemes.

(** [document.createElement(tag)] *)
Definition createElement (tag : jsstring) : node := ElementNode tag [].

(** The [textContent] setter: the children are replaced by one text node
    holding the string, or by nothing when the string is empty. *)
Definition set_textContent (n : node) (text : jsstring) : node :=
  match n with
  | TextNode _ => TextNode text
  | ElementNode tag _ =>
      ElementNode tag (match text with [] => [] | _ => [TextNode text] end)
  end.

(** HTML fragment serialisation, "escaping a string" outside attribute
    mode: [&], U+00A0, [<] and [>] are replaced by entities. *)
Definition escape_unit (c : Z) : jsstring :=
  if Z.eqb c AMP then lit "&amp;"
  else if Z.eqb c NBSP then lit "&nbsp;"
  else if Z.eqb c LT then lit "&lt;"
  else if Z.eqb c GT then lit "&gt;"
  else [c].

Definition escape_string (s : jsstring) : jsstring := flat_map escape_unit s.

Fixpoint serialize (n : node) : jsstring :=
  match n with
  | TextNode data => escape_string data
  | ElementNode tag children =>
      lit "<" ++ tag ++ lit ">"
      ++ concat (map serialize children)
      ++ lit "</" ++ tag ++ lit ">"
  end.

(** The [innerHTML] getter: the serialisation of the children. *)
Definition innerHTML (n : node) : jsstring :=
  match n with
  | TextNode _ => []
  | ElementNode _ children => concat (map serialize children)
  end.

End Js.

(* ===================================================================== *)
(** * static/js/app.js *)
(* ===================================================================== *)

Module App.
Import Js.

(** One attachment preview in [#inputAttachments]: the node's identity and
    the image it shows ([preview.dataset.imageId]). *)
Record preview : Type := {
  preview_node : nat;
  preview_imageId : Z;
}.

(** One message [div] appended to [#messages]. *)
Record message_div : Type := {
  className : jsstring;
  div_innerHTML : jsstring;
}.

(** The module's globals and the parts of the page it writes. *)
Record app_state : Type := {
  currentSessionId : option Z;
  pendingImageIds : list Z;
  inputAttachments : list preview;
  messages : list message_div;
}.

(** [escapeHtml(text)]:
    [div = createElement('div'); div.textContent = text; return div.innerHTML] *)
Definition escapeHtml (text : jsstring) : jsstring :=
  let div := createElement (lit "div") in
  let div := set_textContent div text in
  innerHTML div.

(** [role === 'user' ? 'You' : 'Guru'] *)
Definition headerText (role : jsstring) : jsstring :=
  if decide (role = lit "user") then lit "You" else lit "Guru".

(** The route badge: empty unless [route] is a non-empty string other than
    'general' and 'error' ([null] is [None]). *)
Definition routeBadge (route : option jsstring) : jsstring :=
  match route with
  | None => []
  | Some r =>
      if decide (r = []) then []
      else if decide (r = lit "general") then []
      else if decide (r = lit "error") then []
      else lit "<span class=" ++ [DQUOTE] ++ lit "route-badge" ++ [DQUOTE]
           ++ lit ">" ++ r ++ lit "</span>"
  end.

(** [url.split('/').pop()]; [undefined] prints as the word. *)
Definition imgId_of (url : jsstring) : jsstring :=
  match fst (pop (split SLASH url)) with
  | Some seg => seg
  | None => lit "undefined"
  end.

Definition img_tag (url : jsstring) : jsstring :=
  lit "<img src=" ++ [DQUOTE] ++ url ++ [DQUOTE]
  ++ lit " onclick=" ++ [DQUOTE] ++ lit "openMarkup(" ++ imgId_of url ++ lit ")" ++ [DQUOTE]
  ++ lit " alt=" ++ [DQUOTE] ++ lit "Uploaded image" ++ [DQUOTE] ++ lit ">".

Definition imagesHtml (imageUrls : list jsstring) : jsstring :=
  match imageUrls with
  | [] => []
  | _ =>
      lit "<div class=" ++ [DQUOTE] ++ lit "message-images" ++ [DQUOTE] ++ lit ">"
      ++ join_empty (map img_tag imageUrls) ++ lit "</div>"
  end.

(** The template literal's line break and indentation. *)
Definition indent8 : jsstring := [NEWLINE] ++ lit "        ".
Definition indent4 : jsstring := [NEWLINE] ++ lit "    ".

(** The opening tag of the message body and the closing tag of a [div]. *)
Definition body_open : jsstring :=
  lit "<div class=" ++ [DQUOTE] ++ lit "message-body" ++ [DQUOTE] ++ lit ">".
Definition div_close : jsstring := lit "</div>".

(** The template literal assigned to [div.innerHTML]. *)
Definition message_markup (role content : jsstring) (imageUrls : list jsstring)
    (route : option jsstring) : jsstring :=
  indent8
  ++ lit "<div class=" ++ [DQUOTE] ++ lit "message-header" ++ [DQUOTE] ++ lit ">"
  ++ headerText role ++ routeBadge route ++ div_close
  ++ indent8
  ++ body_open ++ escapeHtml content ++ div_close
  ++ indent8
  ++ imagesHtml imageUrls
  ++ indent4.

(** [addMessageToUI(role, content, imageUrls = [], route = null)] *)
Definition addMessageToUI (role content : jsstring) (imageUrls : list jsstring)
    (route : option jsstring) (st : app_state) : app_state :=
  let div := {| className := lit "message " ++ role;
                div_innerHTML := message_markup role content imageUrls route |} in
  {| currentSessionId := currentSessionId st;
     pendingImageIds := pendingImageIds st;
     inputAttachments := inputAttachments st;
     messages := push (messages st) div |}.

(** [removeAttachment(imageId, btn)]: [btn] is the remove button of the
    preview whose node is [btn_parent]; [btn.parentElement.remove()] takes
    that node out of the page. *)
Definition removeAttachment (imageId : Z) (btn_parent : nat) (st : app_state) : app_state :=
  {| currentSessionId := currentSessionId st;
     pendingImageIds := filter (fun id => id ≠ imageId) (pendingImageIds st);
     inputAttachments := filter (fun p => preview_node p ≠ btn_parent) (inputAttachments st);
     messages := messages st |}.

(** The list with every occurrence of [imageId] dropped and everything else
    kept in place, by recursion on the list. *)
Fixpoint without_id (imageId : Z) (ids : list Z) : list Z :=
  match ids with
  | [] => []
  | id :: rest =>
      if Z.eqb id imageId then without_id imageId rest
      else id :: without_id imageId rest
  end.

(** ** Facts about [escapeHtml] and [addMessageToUI] *)

Lemma escapeHtml_unfold (text : jsstring) :
  escapeHtml text = flat_map escape_unit text.
Proof.
  destruct text as [|c text]; [reflexivity|].
  unfold escapeHtml, createElement, set_textContent, innerHTML.
  cbn [map concat serialize]. unfold escape_string.
  by rewrite app_nil_r.
Qed.

Lemma escapeHtml_app (s1 s2 : jsstring) :
  escapeHtml (s1 ++ s2) = escapeHtml s1 ++ escapeHtml s2.
Proof. rewrite !escapeHtml_unfold. apply flat_map_app. Qed.

Lemma escapeHtml_cons (c : Z) (s : jsstring) :
  escapeHtml (c :: s) = escape_unit c ++ escapeHtml s.
Proof. by rewrite !escapeHtml_unfold. Qed.

Lemma escape_unit_no_angle (c : Z) :
  Forall (fun u => u ≠ LT ∧ u ≠ GT) (escape_unit c).
Proof.
  unfold escape_unit.
  destruct (Z.eqb_spec c AMP); [by repeat constructor|].
  destruct (Z.eqb_spec c NBSP); [by repeat constructor|].
  destruct (Z.eqb_spec c LT); [by repeat constructor|].
  destruct (Z.eqb_spec c GT); [by repeat constructor|].
  by repeat constructor.
Qed.

Lemma escapeHtml_no_angle (text : jsstring) :
  Forall (fun u => u ≠ LT ∧ u ≠ GT) (escapeHtml text).
Proof.
  rewrite escapeHtml_unfold.
  induction text as [|c text IH]; [constructor|].
  cbn [flat_map]. apply Forall_app. split; [apply escape_unit_no_angle | exact IH].
Qed.

(** C8. For every role and content string, the markup that [addMessageToUI]
    appends to the page has, between the opening tag of the message body
    and its closing tag, exactly [escapeHtml content]; [escapeHtml] replaces
    every [<], [>] and [&] of its input by [&lt;], [&gt;] and [&amp;]; and
    so the body holds no raw [<] or [>] at all. *)
Theorem addMessageToUI_body_escaped :
  ∀ (role content : jsstring) (imageUrls : list jsstring)
    (route : option jsstring) (st : app_state),
    (∃ pre post,
        messages (addMessageToUI role content imageUrls route st)
        = messages st
          ++ [{| className := lit "message " ++ role;
                 div_innerHTML :=
                   pre ++ body_open ++ escapeHtml content ++ div_close ++ post |}])
    ∧ (∀ s1 s2, escapeHtml (s1 ++ LT :: s2)
                = escapeHtml s1 ++ lit "&lt;" ++ escapeHtml s2)
    ∧ (∀ s1 s2, escapeHtml (s1 ++ GT :: s2)
                = escapeHtml s1 ++ lit "&gt;" ++ escapeHtml s2)
    ∧ (∀ s1 s2, escapeHtml (s1 ++ AMP :: s2)
                = escapeHtml s1 ++ lit "&amp;" ++ escapeHtml s2)
    ∧ Forall (fun u => u ≠ LT ∧ u ≠ GT) (escapeHtml content).
Proof.
  intros role content imageUrls route st.
  split; [|repeat split].
  - exists (indent8 ++ lit "<div class=" ++ [DQUOTE] ++ lit "message-header"
            ++ [DQUOTE] ++ lit ">" ++ headerText role ++ routeBadge route
            ++ div_close ++ indent8),
           (indent8 ++ imagesHtml imageUrls ++ indent4).
    unfold addMessageToUI, push, message_markup. cbn [messages].
    rewrite <- !app_assoc. reflexivity.
  - intros s1 s2. by rewrite escapeHtml_app, escapeHtml_cons.
  - intros s1 s2. by rewrite escapeHtml_app, escapeHtml_cons.
  - intros s1 s2. by rewrite escapeHtml_app, escapeHtml_cons.
  - apply escapeHtml_no_angle.
Qed.

(** ** Facts about [removeAttachment] *)

Lemma filter_without_id (imageId : Z) (ids : list Z) :
  filter (fun id => id ≠ imageId) ids = without_id imageId ids.
Proof.
  induction ids as [|id ids IH]; [reflexivity|].
  cbn [without_id]. destruct (Z.eqb_spec id imageId) as [->|Hne].
  - rewrite filter_cons_False by (intros H; by apply H). exact IH.
  - rewrite filter_cons_True by exact Hne. by rewrite IH.
Qed.

(** C10. For every list of pending image ids and every id,
    [removeAttachment] leaves [pendingImageIds] equal to the prior list with
    every occurrence of that id removed: the id no longer occurs, every
    other id occurs as often as before, the survivors keep their order, and
    nothing is added. *)
Theorem removeAttachment_pending :
  ∀ (imageId : Z) (btn_parent : nat) (st : app_state),
    let ids' := pendingImageIds (removeAttachment imageId btn_parent st) in
    ids' = without_id imageId (pendingImageIds st)
    ∧ (imageId ∉ ids')
    ∧ (∀ id, id ≠ imageId →
         length (filter (fun x => x = id) ids')
         = length (filter (fun x => x = id) (pendingImageIds st)))
    ∧ sublist ids' (pendingImageIds st)
    ∧ (∀ id, id ∈ ids' → id ∈ pendingImageIds st).
Proof.
  intros imageId btn_parent st. cbn zeta. cbn [removeAttachment pendingImageIds].
  split; [apply filter_without_id|]. split; [|split; [|split]].
  - rewrite list_elem_of_filter. tauto.
  - intros id Hne. f_equal. rewrite list_filter_filter.
    apply list_filter_iff. intros x. split; [tauto|]. intros ->. done.
  - apply sublist_filter.
  - intros id. rewrite list_elem_of_filter. tauto.
Qed.

End App.

(* ===================================================================== *)
(** * The canvas markup tool *)
(* ===================================================================== *)

Module Canvas.
Import Js.

Record point : Type := { px : float; py : float }.

(** The annotation objects pushed by the mouse handlers, by their [type]. *)
Inductive annotation : Type :=
  | Freehand (points : list point) (color : string) (width : float)
  | Line (x1 y1 x2 y2 : float) (color : string) (width : float)
  | Arrow (x1 y1 x2 y2 : float) (color : string) (width : float)
  | Rect (x y w h : float) (color : string) (width : float)
  | Text (x y : float) (text : jsstring) (color : string) (fontSize : float).

(** The global [canvasState] object; [currentPath] is the property the pen
    tool adds to it.  [annotations] and [undoStack] are never the same array:
    [openMarkup] assigns two fresh literals, the clear button a [slice()]
    copy, and the loaded markup is an array of its own. *)
Record canvasState : Type := {
  imageId : option Z;
  tool : string;
  color : string;
  lineWidth : float;
  isDrawing : bool;
  startX : float;
  startY : float;
  annotations : list annotation;
  undoStack : list annotation;
  backgroundImage : option Z;
  currentPath : option (list point);
}.

(** What the canvas shows after a [redrawCanvas()]: the background (or the
    grey fill) and the annotations drawn over it, in order. *)
Record canvas : Type := {
  shown_background : option Z;
  shown : list annotation;
}.

Definition set_lists (st : canvasState) (anns undo : list annotation) : canvasState :=
  {| imageId := imageId st; tool := tool st; color := color st;
     lineWidth := lineWidth st; isDrawing := isDrawing st;
     startX := startX st; startY := startY st;
     annotations := anns; undoStack := undo;
     backgroundImage := backgroundImage st; currentPath := currentPath st |}.

(** [redrawCanvas()] reads the state and repaints; it writes no state. *)
Definition redrawCanvas (st : canvasState) : canvas :=
  {| shown_background := backgroundImage st; shown := annotations st |}.

(** The undo button's [onclick]:
    [if (annotations.length) { undoStack.push(annotations.pop()); redrawCanvas(); }]
    A [pop] that found nothing would push [undefined]; the guard excludes
    it, and the model leaves the stack alone there. *)
Definition undoBtn_onclick (st : canvasState) (cv : canvas) : canvasState * canvas :=
  if negb (Nat.eqb (length (annotations st)) 0) then
    let '(popped, rest) := pop (annotations st) in
    let undo := match popped with
                | Some a => push (undoStack st) a
                | None => undoStack st
                end in
    let st' := set_lists st rest undo in
    (st', redrawCanvas st')
  else (st, cv).

(** The clear button's [onclick], given the answer to [confirm(...)]. *)
Definition clearBtn_onclick (confirmed : bool) (st : canvasState) (cv : canvas)
    : canvasState * canvas :=
  if confirmed then
    let st' := set_lists st [] (annotations st) in
    (st', redrawCanvas st')
  else (st, cv).

(** ** Facts about undo *)

Lemma pop_snoc {A} (l : list A) (a : A) : pop (l ++ [a]) = (Some a, l).
Proof. unfold pop. by rewrite last_snoc, removelast_last. Qed.

(** C9. Clicking undo when the annotations list is non-empty removes exactly
    the last annotation, appends that same annotation to the undo stack and
    leaves the earlier annotations as they were, in order; when the list is
    empty the click changes neither the annotations nor the undo stack. *)
Theorem undoBtn_onclick_spec :
  ∀ (st : canvasState) (cv : canvas),
    (∀ earlier a,
        annotations st = earlier ++ [a] →
        annotations (fst (undoBtn_onclick st cv)) = earlier
        ∧ undoStack (fst (undoBtn_onclick st cv)) = undoStack st ++ [a])
    ∧ (annotations st = [] →
        annotations (fst (undoBtn_onclick st cv)) = []
        ∧ undoStack (fst (undoBtn_onclick st cv)) = undoStack st).
Proof.
  intros st cv. split.
  - intros earlier a Hst. unfold undoBtn_onclick. rewrite Hst, pop_snoc.
    rewrite length_app. cbn [length].
    replace (length earlier + 1)%nat with (S (length earlier)) by lia.
    cbn. done.
  - intros Hst. unfold undoBtn_onclick. rewrite Hst. cbn. by rewrite Hst.
Qed.

(** One line and one rectangle on the canvas; undo takes the rectangle. *)
Definition sample_state : canvasState :=
  {| imageId := Some 7; tool := "rect"; color := "#ff0000"; lineWidth := 3;
     isDrawing := false; startX := 0; startY := 0;
     annotations := [Line 0 0 10 10 "#ff0000" 3; Rect 5 5 20 10 "#ff0000" 3];
     undoStack := [];
     backgroundImage := Some 7; currentPath := None |}.

Lemma undoBtn_onclick_witness :
  annotations (fst (undoBtn_onclick sample_state (redrawCanvas sample_state)))
  = [Line 0 0 10 10 "#ff0000" 3]
  ∧ undoStack (fst (undoBtn_onclick sample_state (redrawCanvas sample_state)))
    = [] ++ [Rect 5 5 20 10 "#ff0000" 3].
Proof.
  apply (proj1 (undoBtn_onclick_spec sample_state (redrawCanvas sample_state))
           [Line 0 0 10 10 "#ff0000" 3] (Rect 5 5 20 10 "#ff0000" 3)).
  reflexivity.
Defined.

End Canvas.

(* ===================================================================== *)
(** * database/schema.sql and database/migrations/002_web_ui.sql *)
(* ===================================================================== *)

(** The schema is read as SQLite reads it, with [PRAGMA foreign_keys = ON]:
    a table is a finite map from rowid to row, a statement either changes
    the database or fails and leaves it as it was (no constraint names a
    conflict clause, so the resolution is ABORT), [ON DELETE CASCADE] deletes
    the referencing rows, and the triggers of a table fire for every row the
    statement inserts, updates or deletes, cascaded deletes included.  An
    error raised inside a trigger aborts the statement that fired it, with
    everything the statement did.  Rowids are 64-bit signed integers.

    Columns keep their names; each table has a module of its own, holding the
    stored row ([row]) and the columns of an [INSERT] ([values], primed
    names), where a column with a [DEFAULT] may be left out ([None]).
    [NOT NULL] is the column's type; a nullable column is an [option];
    [REAL] is a binary64 float.  Tables that no
    statement below writes (categories, tags and their link tables, the chat
    tables, optimization_log) are left out. *)

Module Schema.

Inductive sql_error : Type :=
  | CONSTRAINT_CHECK
  | CONSTRAINT_NOTNULL
  | CONSTRAINT_PRIMARYKEY
  | CONSTRAINT_UNIQUE
  | CONSTRAINT_FOREIGNKEY
  | SQLITE_FULL
  | SQLITE_MISMATCH
  | SQLITE_CORRUPT_VTAB.

(** What a statement reports: the rowid of the inserted row, the number of
    rows it changed directly, or the error that aborted it. *)
Inductive outcome : Type :=
  | Inserted (rowid : Z)
  | Changed (n : nat)
  | Failed (e : sql_error).

Module channels.
Record row : Type := {
  channel_id : string;
  channel_name : string;
  channel_url : string;
  description : option string;
  subscriber_count : option Z;
  video_count : option Z;
  thumbnail_url : option string;
  created_at : string;
  updated_at : string;
}.
Record values : Type := {
  channel_id' : string;
  channel_name' : string;
  channel_url' : string;
  description' : option string;
  subscriber_count' : option Z;
  video_count' : option Z;
  thumbnail_url' : option string;
  created_at' : option string;
  updated_at' : option string;
}.
End channels.

Module videos.
Record row : Type := {
  video_id : string;
  channel_id : Z;
  title : string;
  description : option string;
  published_at : option string;
  duration_seconds : option Z;
  view_count : option Z;
  like_count : option Z;
  thumbnail_url : option string;
  ingestion_status : string;
  failure_reason : option string;
  created_at : string;
  updated_at : string;
}.
Record values : Type := {
  video_id' : string;
  channel_id' : Z;
  title' : string;
  description' : option string;
  published_at' : option string;
  duration_seconds' : option Z;
  view_count' : option Z;
  like_count' : option Z;
  thumbnail_url' : option string;
  ingestion_status' : option string;
  failure_reason' : option string;
  created_at' : option string;
  updated_at' : option string;
}.
End videos.

Module transcripts.
Record row : Type := {
  video_id : Z;
  language_code : string;
  is_generated : bool;
  full_text : string;
  snippet_data : string;
  word_count : Z;
  created_at : string;
}.
Record values : Type := {
  video_id' : Z;
  language_code' : option string;
  is_generated' : option bool;
  full_text' : string;
  snippet_data' : string;
  word_count' : Z;
  created_at' : option string;
}.
End transcripts.

Module knowledge_entries.
Record row : Type := {
  video_id : Z;
  entry_type : string;
  title : string;
  content : string;
  source_start_time : option float;
  source_end_time : option float;
  source_quote : option string;
  confidence : float;
  chunk_index : option Z;
  created_at : string;
}.
Record values : Type := {
  video_id' : Z;
  entry_type' : string;
  title' : string;
  content' : string;
  source_start_time' : option float;
  source_end_time' : option float;
  source_quote' : option string;
  confidence' : option float;
  chunk_index' : option Z;
  created_at' : option string;
}.
End knowledge_entries.

Module processing_log.
Record row : Type := {
  video_id : Z;
  step : string;
  chunk_index : option Z;
  status : string;
  tokens_used : option Z;
  error_message : option string;
  started_at : string;
  completed_at : option string;
}.
Record values : Type := {
  video_id' : Z;
  step' : string;
  chunk_index' : option Z;
  status' : string;
  tokens_used' : option Z;
  error_message' : option string;
  started_at' : option string;
  completed_at' : option string;
}.
End processing_log.

Module bias_flags.
Record row : Type := {
  knowledge_id : Z;
  bias_type : string;
  bias_severity : string;
  brand_names : option string;
  bias_notes : string;
  detected_by : string;
  created_at : string;
}.
Record values : Type := {
  knowledge_id' : Z;
  bias_type' : string;
  bias_severity' : option string;
  brand_names' : option string;
  bias_notes' : string;
  detected_by' : option string;
  created_at' : option string;
}.
End bias_flags.

Module optimization_queue.
Record row : Type := {
  action_type : string;
  severity : string;
  status : string;
  target_type : string;
  target_id : option Z;
  description : string;
  details : option string;
  created_at : string;
  resolved_at : option string;
  resolved_by : option string;
}.
Record values : Type := {
  action_type' : string;
  severity' : option string;
  status' : option string;
  target_type' : string;
  target_id' : option Z;
  description' : string;
  details' : option string;
  created_at' : option string;
  resolved_at' : option string;
  resolved_by' : option string;
}.
End optimization_queue.

(** ** The full-text indexes *)

(** An FTS5 table row as the index knows it: the rowid and the text of each
    indexed column ([NULL] is [None]).  The index is a bag of such rows: the
    engine does not keep rowids unique in an external-content table. *)
Abbreviation fts_row := (Z * list (option string))%type (only parsing).
Abbreviation fts_index := (list fts_row) (only parsing).

(** [INSERT INTO t_fts(rowid, c1, ..) VALUES (..)] *)
Definition fts_insert (rowid : Z) (cols : list (option string)) (idx : fts_index)
    : fts_index :=
  idx ++ [(rowid, cols)].

(** The index without the entry made for this rowid from these column
    values, if it holds one. *)
Fixpoint fts_remove (rowid : Z) (cols : list (option string)) (idx : fts_index)
    : option fts_index :=
  match idx with
  | [] => None
  | r :: idx' =>
      if decide (r = (rowid, cols)) then Some idx'
      else (r ::.) <$> fts_remove rowid cols idx'
  end.

(** An engine that reports SQLITE_CORRUPT_VTAB for every 'delete' whose
    values it did not index for the rowid. *)
Definition fts5_corrupt_vtab (rowid : Z) (cols : list (option string))
    (idx : fts_index) : option fts_index :=
  None.

Section Engine.

(** What FTS5 does with a 'delete' whose values are not the ones it indexed
    for the rowid.  The engine then works from its token statistics: it
    reports SQLITE_CORRUPT_VTAB ([None]) or strips the tokens it finds and
    goes on with the index that leaves.  Which of the two, and which index,
    is the engine's business and not the schema's: everything below holds
    for every such engine. *)
Variable fts5_stale_delete :
  Z → list (option string) → fts_index → option fts_index.

(** [INSERT INTO t_fts(t_fts, rowid, c1, ..) VALUES ('delete', ..)]: the
    entry made for this rowid from these column values is taken out; when
    the index holds none, the engine decides. *)
Definition fts_delete (rowid : Z) (cols : list (option string)) (idx : fts_index)
    : option fts_index :=
  match fts_remove rowid cols idx with
  | Some idx' => Some idx'
  | None => fts5_stale_delete rowid cols idx
  end.

(** ** The database *)

Record db : Type := {
  channels : gmap Z channels.row;
  videos : gmap Z videos.row;
  transcripts : gmap Z transcripts.row;
  knowledge_entries : gmap Z knowledge_entries.row;
  processing_log : gmap Z processing_log.row;
  bias_flags : gmap Z bias_flags.row;
  optimization_queue : gmap Z optimization_queue.row;
  knowledge_fts : fts_index;
  transcript_fts : fts_index;
  video_fts : fts_index;
  sqlite_sequence : gmap string Z;
}.

Definition empty_db : db :=
  {| channels := ∅; videos := ∅; transcripts := ∅; knowledge_entries := ∅;
     processing_log := ∅; bias_flags := ∅; optimization_queue := ∅;
     knowledge_fts := []; transcript_fts := []; video_fts := [];
     sqlite_sequence := ∅ |}.

Definition set_channels (f : gmap Z channels.row → gmap Z channels.row) (d : db) : db :=
  {| channels := f (channels d); videos := videos d; transcripts := transcripts d;
     knowledge_entries := knowledge_entries d; processing_log := processing_log d;
     bias_flags := bias_flags d; optimization_queue := optimization_queue d;
     knowledge_fts := knowledge_fts d; transcript_fts := transcript_fts d;
     video_fts := video_fts d; sqlite_sequence := sqlite_sequence d |}.

Definition set_videos (f : gmap Z videos.row → gmap Z videos.row) (d : db) : db :=
  {| channels := channels d; videos := f (videos d); transcripts := transcripts d;
     knowledge_entries := knowledge_entries d; processing_log := processing_log d;
     bias_flags := bias_flags d; optimization_queue := optimization_queue d;
     knowledge_fts := knowledge_fts d; transcript_fts := transcript_fts d;
     video_fts := video_fts d; sqlite_sequence := sqlite_sequence d |}.

Definition set_transcripts (f : gmap Z transcripts.row → gmap Z transcripts.row) (d : db) : db :=
  {| channels := channels d; videos := videos d; transcripts := f (transcripts d);
     knowledge_entries := knowledge_entries d; processing_log := processing_log d;
     bias_flags := bias_flags d; optimization_queue := optimization_queue d;
     knowledge_fts := knowledge_fts d; transcript_fts := transcript_fts d;
     video_fts := video_fts d; sqlite_sequence := sqlite_sequence d |}.

Definition set_knowledge_entries
    (f : gmap Z knowledge_entries.row → gmap Z knowledge_entries.row) (d : db) : db :=
  {| channels := channels d; videos := videos d; transcripts := transcripts d;
     knowledge_entries := f (knowledge_entries d); processing_log := processing_log d;
     bias_flags := bias_flags d; optimization_queue := optimization_queue d;
     knowledge_fts := knowledge_fts d; transcript_fts := transcript_fts d;
     video_fts := video_fts d; sqlite_sequence := sqlite_sequence d |}.

Definition set_processing_log
    (f : gmap Z processing_log.row → gmap Z processing_log.row) (d : db) : db :=
  {| channels := channels d; videos := videos d; transcripts := transcripts d;
     knowledge_entries := knowledge_entries d; processing_log := f (processing_log d);
     bias_flags := bias_flags d; optimization_queue := optimization_queue d;
     knowledge_fts := knowledge_fts d; transcript_fts := transcript_fts d;
     video_fts := video_fts d; sqlite_sequence := sqlite_sequence d |}.

Definition set_bias_flags (f : gmap Z bias_flags.row → gmap Z bias_flags.row) (d : db) : db :=
  {| channels := channels d; videos := videos d; transcripts := transcripts d;
     knowledge_entries := knowledge_entries d; processing_log := processing_log d;
     bias_flags := f (bias_flags d); optimization_queue := optimization_queue d;
     knowledge_fts := knowledge_fts d; transcript_fts := transcript_fts d;
     video_fts := video_fts d; sqlite_sequence := sqlite_sequence d |}.

Definition set_optimization_queue
    (f : gmap Z optimization_queue.row → gmap Z optimization_queue.row) (d : db) : db :=
  {| channels := channels d; videos := videos d; transcripts := transcripts d;
     knowledge_entries := knowledge_entries d; processing_log := processing_log d;
     bias_flags := bias_flags d; optimization_queue := f (optimization_queue d);
     knowledge_fts := knowledge_fts d; transcript_fts := transcript_fts d;
     video_fts := video_fts d; sqlite_sequence := sqlite_sequence d |}.

Definition set_knowledge_fts (f : fts_index → fts_index) (d : db) : db :=
  {| channels := channels d; videos := videos d; transcripts := transcripts d;
     knowledge_entries := knowledge_entries d; processing_log := processing_log d;
     bias_flags := bias_flags d; optimization_queue := optimization_queue d;
     knowledge_fts := f (knowledge_fts d); transcript_fts := transcript_fts d;
     video_fts := video_fts d; sqlite_sequence := sqlite_sequence d |}.

Definition set_transcript_fts (f : fts_index → fts_index) (d : db) : db :=
  {| channels := channels d; videos := videos d; transcripts := transcripts d;
     knowledge_entries := knowledge_entries d; processing_log := processing_log d;
     bias_flags := bias_flags d; optimization_queue := optimization_queue d;
     knowledge_fts := knowledge_fts d; transcript_fts := f (transcript_fts d);
     video_fts := video_fts d; sqlite_sequence := sqlite_sequence d |}.

Definition set_video_fts (f : fts_index → fts_index) (d : db) : db :=
  {| channels := channels d; videos := videos d; transcripts := transcripts d;
     knowledge_entries := knowledge_entries d; processing_log := processing_log d;
     bias_flags := bias_flags d; optimization_queue := optimization_queue d;
     knowledge_fts := knowledge_fts d; transcript_fts := transcript_fts d;
     video_fts := f (video_fts d); sqlite_sequence := sqlite_sequence d |}.

Definition set_sqlite_sequence (f : gmap string Z → gmap string Z) (d : db) : db :=
  {| channels := channels d; videos := videos d; transcripts := transcripts d;
     knowledge_entries := knowledge_entries d; processing_log := processing_log d;
     bias_flags := bias_flags d; optimization_queue := optimization_queue d;
     knowledge_fts := knowledge_fts d; transcript_fts := transcript_fts d;
     video_fts := video_fts d; sqlite_sequence := f (sqlite_sequence d) |}.

(** ** Constraints *)

(** [CHECK (ingestion_status IN (...))] on videos *)
Definition check_ingestion_status (s : string) : bool :=
  bool_decide (s ∈ ["pending"; "transcript_fetched"; "analyzed"; "failed"; "skipped"]).

(** [CHECK (entry_type IN (...))] on knowledge_entries *)
Definition check_entry_type (s : string) : bool :=
  bool_decide (s ∈ ["insight"; "tip"; "concept"; "technique"; "warning";
                    "resource"; "quote"]).

(** [CHECK (confidence >= 0.0 AND confidence <= 1.0)] *)
Definition check_confidence (c : float) : bool :=
  PrimFloat.leb 0 c && PrimFloat.leb c 1.

(** [CHECK (step IN (...))] and [CHECK (status IN (...))] on processing_log *)
Definition check_step (s : string) : bool :=
  bool_decide (s ∈ ["fetch_transcript"; "analyze_chunk"; "store_knowledge"]).
Definition check_log_status (s : string) : bool :=
  bool_decide (s ∈ ["started"; "completed"; "failed"]).

(** [CHECK (bias_type IN (...))] and [CHECK (bias_severity IN (...))] *)
Definition check_bias_type (s : string) : bool :=
  bool_decide (s ∈ ["brand_promotion"; "affiliate"; "sponsored";
                    "product_placement"; "unsubstantiated_claim"]).
Definition check_bias_severity (s : string) : bool :=
  bool_decide (s ∈ ["low"; "medium"; "high"]).

(** The three [CHECK]s of optimization_queue *)
Definition check_action_type (s : string) : bool :=
  bool_decide (s ∈ ["re_ingest"; "delete_entry"; "merge_videos"; "reclassify";
                    "merge_entries"; "normalize_tags"; "fill_metadata"; "rescore"]).
Definition check_severity (s : string) : bool :=
  bool_decide (s ∈ ["auto"; "suggestion"; "destructive"]).
Definition check_status (s : string) : bool :=
  bool_decide (s ∈ ["pending"; "approved"; "rejected"; "executed"; "failed"]).

(** Is there a row that satisfies [P]?  (What a UNIQUE index answers.) *)
Definition any_row {R} (P : Z → R → bool) (tbl : gmap Z R) : bool :=
  existsb (fun kv => P kv.1 kv.2) (map_to_list tbl).

(** The rows that satisfy [P], with their rowids. *)
Definition rows_where {R} (P : R → bool) (tbl : gmap Z R) : list (Z * R) :=
  filter (fun kv => P kv.2) (map_to_list tbl).

(** ** [INTEGER PRIMARY KEY AUTOINCREMENT] *)

Definition max_rowid {R} (tbl : gmap Z R) : Z :=
  foldr Z.max 0 ((map_to_list tbl).*1).

(** The bounds of a rowid. *)
Definition MAX_ROWID : Z := 9223372036854775807.
Definition MIN_ROWID : Z := -9223372036854775808.

(** The largest rowid a table holds or has ever held ([sqlite_sequence]). *)
Definition largest_rowid {R} (table : string) (tbl : gmap Z R) (d : db) : Z :=
  Z.max (default 0 (sqlite_sequence d !! table)) (max_rowid tbl).

(** The rowid of a new row.  A given rowid must be a 64-bit integer, or the
    statement fails with a datatype mismatch.  Without one, the rowid is
    one more than the largest the table holds or has ever held; once that
    is the largest possible rowid the table is full. *)
Definition new_rowid {R} (table : string) (rowid : option Z) (tbl : gmap Z R)
    (d : db) : sql_error + Z :=
  match rowid with
  | Some id =>
      if decide (MIN_ROWID ≤ id ≤ MAX_ROWID) then inr id else inl SQLITE_MISMATCH
  | None =>
      if decide (largest_rowid table tbl d < MAX_ROWID)
      then inr (largest_rowid table tbl d + 1)
      else inl SQLITE_FULL
  end.

Definition bump_sequence (table : string) (id : Z) (d : db) : db :=
  set_sqlite_sequence
    (fun s => <[table := Z.max (default 0 (s !! table)) id]> s) d.

(** ** The columns of an [INSERT], defaults filled in *)

(** [DEFAULT 0.8]: the binary64 value nearest to the decimal literal. *)
Definition default_confidence : float := 0x1.999999999999ap-1%float.

Definition channel_of_values (now : string) (v : channels.values) : channels.row :=
  {| channels.channel_id := channels.channel_id' v;
     channels.channel_name := channels.channel_name' v;
     channels.channel_url := channels.channel_url' v;
     channels.description := channels.description' v;
     channels.subscriber_count := channels.subscriber_count' v;
     channels.video_count := channels.video_count' v;
     channels.thumbnail_url := channels.thumbnail_url' v;
     channels.created_at := default now (channels.created_at' v);
     channels.updated_at := default now (channels.updated_at' v) |}.

Definition video_of_values (now : string) (v : videos.values) : videos.row :=
  {| videos.video_id := videos.video_id' v;
     videos.channel_id := videos.channel_id' v;
     videos.title := videos.title' v;
     videos.description := videos.description' v;
     videos.published_at := videos.published_at' v;
     videos.duration_seconds := videos.duration_seconds' v;
     videos.view_count := videos.view_count' v;
     videos.like_count := videos.like_count' v;
     videos.thumbnail_url := videos.thumbnail_url' v;
     videos.ingestion_status := default "pending" (videos.ingestion_status' v);
     videos.failure_reason := videos.failure_reason' v;
     videos.created_at := default now (videos.created_at' v);
     videos.updated_at := default now (videos.updated_at' v) |}.

Definition transcript_of_values (now : string) (v : transcripts.values)
    : transcripts.row :=
  {| transcripts.video_id := transcripts.video_id' v;
     transcripts.language_code := default "en" (transcripts.language_code' v);
     transcripts.is_generated := default false (transcripts.is_generated' v);
     transcripts.full_text := transcripts.full_text' v;
     transcripts.snippet_data := transcripts.snippet_data' v;
     transcripts.word_count := transcripts.word_count' v;
     transcripts.created_at := default now (transcripts.created_at' v) |}.

Definition knowledge_of_values (now : string) (v : knowledge_entries.values)
    : knowledge_entries.row :=
  {| knowledge_entries.video_id := knowledge_entries.video_id' v;
     knowledge_entries.entry_type := knowledge_entries.entry_type' v;
     knowledge_entries.title := knowledge_entries.title' v;
     knowledge_entries.content := knowledge_entries.content' v;
     knowledge_entries.source_start_time := knowledge_entries.source_start_time' v;
     knowledge_entries.source_end_time := knowledge_entries.source_end_time' v;
     knowledge_entries.source_quote := knowledge_entries.source_quote' v;
     knowledge_entries.confidence :=
       default default_confidence (knowledge_entries.confidence' v);
     knowledge_entries.chunk_index := knowledge_entries.chunk_index' v;
     knowledge_entries.created_at := default now (knowledge_entries.created_at' v) |}.

Definition log_of_values (now : string) (v : processing_log.values)
    : processing_log.row :=
  {| processing_log.video_id := processing_log.video_id' v;
     processing_log.step := processing_log.step' v;
     processing_log.chunk_index := processing_log.chunk_index' v;
     processing_log.status := processing_log.status' v;
     processing_log.tokens_used := processing_log.tokens_used' v;
     processing_log.error_message := processing_log.error_message' v;
     processing_log.started_at := default now (processing_log.started_at' v);
     processing_log.completed_at := processing_log.completed_at' v |}.

Definition bias_flag_of_values (now : string) (v : bias_flags.values)
    : bias_flags.row :=
  {| bias_flags.knowledge_id := bias_flags.knowledge_id' v;
     bias_flags.bias_type := bias_flags.bias_type' v;
     bias_flags.bias_severity := default "medium" (bias_flags.bias_severity' v);
     bias_flags.brand_names := bias_flags.brand_names' v;
     bias_flags.bias_notes := bias_flags.bias_notes' v;
     bias_flags.detected_by := default "bias_agent" (bias_flags.detected_by' v);
     bias_flags.created_at := default now (bias_flags.created_at' v) |}.

Definition queue_item_of_values (now : string) (v : optimization_queue.values)
    : optimization_queue.row :=
  {| optimization_queue.action_type := optimization_queue.action_type' v;
     optimization_queue.severity :=
       default "suggestion" (optimization_queue.severity' v);
     optimization_queue.status := default "pending" (optimization_queue.status' v);
     optimization_queue.target_type := optimization_queue.target_type' v;
     optimization_queue.target_id := optimization_queue.target_id' v;
     optimization_queue.description := optimization_queue.description' v;
     optimization_queue.details := optimization_queue.details' v;
     optimization_queue.created_at :=
       default now (optimization_queue.created_at' v);
     optimization_queue.resolved_at := optimization_queue.resolved_at' v;
     optimization_queue.resolved_by := optimization_queue.resolved_by' v |}.

(** ** Triggers: keep FTS in sync *)

Definition knowledge_ai (new_id : Z) (new : knowledge_entries.row) (d : db) : db :=
  set_knowledge_fts
    (fts_insert new_id [Some (knowledge_entries.title new);
                        Some (knowledge_entries.content new);
                        knowledge_entries.source_quote new]) d.

Definition knowledge_ad (old_id : Z) (old : knowledge_entries.row) (d : db)
    : option db :=
  idx ← fts_delete old_id [Some (knowledge_entries.title old);
                           Some (knowledge_entries.content old);
                           knowledge_entries.source_quote old] (knowledge_fts d);
  Some (set_knowledge_fts (fun _ => idx) d).

Definition knowledge_au (old_id : Z) (old : knowledge_entries.row)
    (new_id : Z) (new : knowledge_entries.row) (d : db) : option db :=
  idx ← fts_delete old_id [Some (knowledge_entries.title old);
                           Some (knowledge_entries.content old);
                           knowledge_entries.source_quote old] (knowledge_fts d);
  let d := set_knowledge_fts (fun _ => idx) d in
  Some (set_knowledge_fts
          (fts_insert new_id [Some (knowledge_entries.title new);
                              Some (knowledge_entries.content new);
                              knowledge_entries.source_quote new]) d).

Definition transcript_ai (new_id : Z) (new : transcripts.row) (d : db) : db :=
  set_transcript_fts (fts_insert new_id [Some (transcripts.full_text new)]) d.

Definition transcript_ad (old_id : Z) (old : transcripts.row) (d : db) : option db :=
  idx ← fts_delete old_id [Some (transcripts.full_text old)] (transcript_fts d);
  Some (set_transcript_fts (fun _ => idx) d).

Definition video_ai (new_id : Z) (new : videos.row) (d : db) : db :=
  set_video_fts
    (fts_insert new_id [Some (videos.title new); videos.description new]) d.

Definition video_ad (old_id : Z) (old : videos.row) (d : db) : option db :=
  idx ← fts_delete old_id [Some (videos.title old); videos.description old]
          (video_fts d);
  Some (set_video_fts (fun _ => idx) d).

Definition video_au (old_id : Z) (old : videos.row)
    (new_id : Z) (new : videos.row) (d : db) : option db :=
  idx ← fts_delete old_id [Some (videos.title old); videos.description old]
          (video_fts d);
  let d := set_video_fts (fun _ => idx) d in
  Some (set_video_fts
          (fts_insert new_id [Some (videos.title new); videos.description new]) d).

(** ** Deleting one row: cascades and triggers *)

(** Deleting a row, with its cascade and its trigger, gives the database
    after it, or nothing when the trigger failed. *)

(** A bias flag has no dependants and no trigger. *)
Definition delete_bias_flag_row (id : Z) (d : db) : db :=
  set_bias_flags (delete id) d.

(** A knowledge entry takes its bias flags along
    ([bias_flags.knowledge_id ... ON DELETE CASCADE]); then [knowledge_ad]. *)
Definition delete_knowledge_row (id : Z) (old : knowledge_entries.row) (d : db)
    : option db :=
  let d := set_knowledge_entries (delete id) d in
  let d := set_bias_flags
             (filter (fun kv => bias_flags.knowledge_id kv.2 ≠ id)) d in
  knowledge_ad id old d.

(** A transcript has no dependants; [transcript_ad] fires. *)
Definition delete_transcript_row (id : Z) (old : transcripts.row) (d : db)
    : option db :=
  let d := set_transcripts (delete id) d in
  transcript_ad id old d.

(** The rows of a cascade, deleted one after the other; one failure fails
    the cascade. *)
Definition delete_rows {R} (delete_row : Z → R → db → option db)
    (rows : list (Z * R)) (d : db) : option db :=
  foldr (fun kv acc => acc ≫= delete_row kv.1 kv.2) (Some d) rows.

(** A video takes along its transcript, its knowledge entries (each with
    its own cascade and trigger) and its processing_log rows, all declared
    [REFERENCES videos(id) ON DELETE CASCADE]; then [video_ad]. *)
Definition delete_video_row (id : Z) (old : videos.row) (d : db) : option db :=
  let d := set_videos (delete id) d in
  d ← delete_rows delete_transcript_row
         (rows_where (fun t => bool_decide (transcripts.video_id t = id))
            (transcripts d)) d;
  d ← delete_rows delete_knowledge_row
         (rows_where (fun k => bool_decide (knowledge_entries.video_id k = id))
            (knowledge_entries d)) d;
  let d := set_processing_log
             (filter (fun kv => processing_log.video_id kv.2 ≠ id)) d in
  video_ad id old d.

(** A channel takes its videos along
    ([videos.channel_id ... ON DELETE CASCADE]). *)
Definition delete_channel_row (id : Z) (d : db) : option db :=
  let d := set_channels (delete id) d in
  delete_rows delete_video_row
    (rows_where (fun v => bool_decide (videos.channel_id v = id)) (videos d)) d.

(** ** Statements *)

(** [INSERT INTO channels ...] *)
Definition insert_channel (now : string) (rowid : option Z) (v : channels.values)
    (d : db) : outcome * db :=
  let new := channel_of_values now v in
  match new_rowid "channels" rowid (channels d) d with
  | inl e => (Failed e, d)
  | inr id =>
    if decide (is_Some (channels d !! id)) then (Failed CONSTRAINT_PRIMARYKEY, d)
    else if any_row (fun _ r => bool_decide (channels.channel_id r = channels.channel_id new))
              (channels d)
    then (Failed CONSTRAINT_UNIQUE, d)
    else (Inserted id, bump_sequence "channels" id (set_channels <[id := new]> d))
  end.

(** [DELETE FROM channels WHERE id = ?] *)
Definition delete_channel (id : Z) (d : db) : outcome * db :=
  match channels d !! id with
  | None => (Changed 0, d)
  | Some _ =>
      match delete_channel_row id d with
      | Some d' => (Changed 1, d')
      | None => (Failed SQLITE_CORRUPT_VTAB, d)
      end
  end.

(** [INSERT INTO videos ...] *)
Definition insert_video (now : string) (rowid : option Z) (v : videos.values)
    (d : db) : outcome * db :=
  let new := video_of_values now v in
  match new_rowid "videos" rowid (videos d) d with
  | inl e => (Failed e, d)
  | inr id =>
    if negb (check_ingestion_status (videos.ingestion_status new))
    then (Failed CONSTRAINT_CHECK, d)
    else if decide (is_Some (videos d !! id)) then (Failed CONSTRAINT_PRIMARYKEY, d)
    else if any_row (fun _ r => bool_decide (videos.video_id r = videos.video_id new))
              (videos d)
    then (Failed CONSTRAINT_UNIQUE, d)
    else if decide (is_Some (channels d !! videos.channel_id new))
    then (Inserted id,
          video_ai id new (bump_sequence "videos" id (set_videos <[id := new]> d)))
    else (Failed CONSTRAINT_FOREIGNKEY, d)
  end.

(** [UPDATE videos SET ... WHERE id = ?]; [set] is the SET clause. *)
Definition update_video (id : Z) (set : videos.row → videos.row) (d : db)
    : outcome * db :=
  match videos d !! id with
  | None => (Changed 0, d)
  | Some old =>
      let new := set old in
      if negb (check_ingestion_status (videos.ingestion_status new))
      then (Failed CONSTRAINT_CHECK, d)
      else if any_row (fun i r => bool_decide (i ≠ id)
                                  && bool_decide (videos.video_id r = videos.video_id new))
                (videos d)
      then (Failed CONSTRAINT_UNIQUE, d)
      else if bool_decide (videos.channel_id new = videos.channel_id old)
              || bool_decide (is_Some (channels d !! videos.channel_id new))
      then match video_au id old id new (set_videos <[id := new]> d) with
           | Some d' => (Changed 1, d')
           | None => (Failed SQLITE_CORRUPT_VTAB, d)
           end
      else (Failed CONSTRAINT_FOREIGNKEY, d)
  end.

(** [DELETE FROM videos WHERE id = ?] *)
Definition delete_video (id : Z) (d : db) : outcome * db :=
  match videos d !! id with
  | None => (Changed 0, d)
  | Some old =>
      match delete_video_row id old d with
      | Some d' => (Changed 1, d')
      | None => (Failed SQLITE_CORRUPT_VTAB, d)
      end
  end.

(** [INSERT INTO transcripts ...] *)
Definition insert_transcript (now : string) (rowid : option Z)
    (v : transcripts.values) (d : db) : outcome * db :=
  let new := transcript_of_values now v in
  match new_rowid "transcripts" rowid (transcripts d) d with
  | inl e => (Failed e, d)
  | inr id =>
    if decide (is_Some (transcripts d !! id)) then (Failed CONSTRAINT_PRIMARYKEY, d)
    else if any_row (fun _ r => bool_decide (transcripts.video_id r = transcripts.video_id new))
              (transcripts d)
    then (Failed CONSTRAINT_UNIQUE, d)
    else if decide (is_Some (videos d !! transcripts.video_id new))
    then (Inserted id,
          transcript_ai id new
            (bump_sequence "transcripts" id (set_transcripts <[id := new]> d)))
    else (Failed CONSTRAINT_FOREIGNKEY, d)
  end.

(** [UPDATE transcripts SET ... WHERE id = ?]: the schema declares no
    trigger for it. *)
Definition update_transcript (id : Z) (set : transcripts.row → transcripts.row)
    (d : db) : outcome * db :=
  match transcripts d !! id with
  | None => (Changed 0, d)
  | Some old =>
      let new := set old in
      if any_row (fun i r => bool_decide (i ≠ id)
                             && bool_decide (transcripts.video_id r = transcripts.video_id new))
           (transcripts d)
      then (Failed CONSTRAINT_UNIQUE, d)
      else if bool_decide (transcripts.video_id new = transcripts.video_id old)
              || bool_decide (is_Some (videos d !! transcripts.video_id new))
      then (Changed 1, set_transcripts <[id := new]> d)
      else (Failed CONSTRAINT_FOREIGNKEY, d)
  end.

(** [DELETE FROM transcripts WHERE id = ?] *)
Definition delete_transcript (id : Z) (d : db) : outcome * db :=
  match transcripts d !! id with
  | None => (Changed 0, d)
  | Some old =>
      match delete_transcript_row id old d with
      | Some d' => (Changed 1, d')
      | None => (Failed SQLITE_CORRUPT_VTAB, d)
      end
  end.

(** [INSERT INTO knowledge_entries ...].  A NaN is stored as [NULL], which
    the column's [NOT NULL] refuses. *)
Definition insert_knowledge (now : string) (rowid : option Z)
    (v : knowledge_entries.values) (d : db) : outcome * db :=
  let new := knowledge_of_values now v in
  match new_rowid "knowledge_entries" rowid (knowledge_entries d) d with
  | inl e => (Failed e, d)
  | inr id =>
    if PrimFloat.is_nan (knowledge_entries.confidence new)
    then (Failed CONSTRAINT_NOTNULL, d)
    else if negb (check_entry_type (knowledge_entries.entry_type new)
                  && check_confidence (knowledge_entries.confidence new))
    then (Failed CONSTRAINT_CHECK, d)
    else if decide (is_Some (knowledge_entries d !! id))
    then (Failed CONSTRAINT_PRIMARYKEY, d)
    else if decide (is_Some (videos d !! knowledge_entries.video_id new))
    then (Inserted id,
          knowledge_ai id new
            (bump_sequence "knowledge_entries" id
               (set_knowledge_entries <[id := new]> d)))
    else (Failed CONSTRAINT_FOREIGNKEY, d)
  end.

(** [UPDATE knowledge_entries SET ... WHERE id = ?] *)
Definition update_knowledge (id : Z)
    (set : knowledge_entries.row → knowledge_entries.row) (d : db) : outcome * db :=
  match knowledge_entries d !! id with
  | None => (Changed 0, d)
  | Some old =>
      let new := set old in
      if PrimFloat.is_nan (knowledge_entries.confidence new)
      then (Failed CONSTRAINT_NOTNULL, d)
      else if negb (check_entry_type (knowledge_entries.entry_type new)
                    && check_confidence (knowledge_entries.confidence new))
      then (Failed CONSTRAINT_CHECK, d)
      else if bool_decide (knowledge_entries.video_id new = knowledge_entries.video_id old)
              || bool_decide (is_Some (videos d !! knowledge_entries.video_id new))
      then match knowledge_au id old id new
                   (set_knowledge_entries <[id := new]> d) with
           | Some d' => (Changed 1, d')
           | None => (Failed SQLITE_CORRUPT_VTAB, d)
           end
      else (Failed CONSTRAINT_FOREIGNKEY, d)
  end.

(** [DELETE FROM knowledge_entries WHERE id = ?] *)
Definition delete_knowledge (id : Z) (d : db) : outcome * db :=
  match knowledge_entries d !! id with
  | None => (Changed 0, d)
  | Some old =>
      match delete_knowledge_row id old d with
      | Some d' => (Changed 1, d')
      | None => (Failed SQLITE_CORRUPT_VTAB, d)
      end
  end.

(** [INSERT INTO processing_log ...] *)
Definition insert_log (now : string) (rowid : option Z) (v : processing_log.values)
    (d : db) : outcome * db :=
  let new := log_of_values now v in
  match new_rowid "processing_log" rowid (processing_log d) d with
  | inl e => (Failed e, d)
  | inr id =>
    if negb (check_step (processing_log.step new)
             && check_log_status (processing_log.status new))
    then (Failed CONSTRAINT_CHECK, d)
    else if decide (is_Some (processing_log d !! id))
    then (Failed CONSTRAINT_PRIMARYKEY, d)
    else if decide (is_Some (videos d !! processing_log.video_id new))
    then (Inserted id,
          bump_sequence "processing_log" id (set_processing_log <[id := new]> d))
    else (Failed CONSTRAINT_FOREIGNKEY, d)
  end.

(** [INSERT INTO bias_flags ...] *)
Definition insert_bias_flag (now : string) (rowid : option Z) (v : bias_flags.values)
    (d : db) : outcome * db :=
  let new := bias_flag_of_values now v in
  match new_rowid "bias_flags" rowid (bias_flags d) d with
  | inl e => (Failed e, d)
  | inr id =>
    if negb (check_bias_type (bias_flags.bias_type new)
             && check_bias_severity (bias_flags.bias_severity new))
    then (Failed CONSTRAINT_CHECK, d)
    else if decide (is_Some (bias_flags d !! id)) then (Failed CONSTRAINT_PRIMARYKEY, d)
    else if any_row (fun _ r =>
                       bool_decide (bias_flags.knowledge_id r = bias_flags.knowledge_id new)
                       && bool_decide (bias_flags.bias_type r = bias_flags.bias_type new))
              (bias_flags d)
    then (Failed CONSTRAINT_UNIQUE, d)
    else if decide (is_Some (knowledge_entries d !! bias_flags.knowledge_id new))
    then (Inserted id,
          bump_sequence "bias_flags" id (set_bias_flags <[id := new]> d))
    else (Failed CONSTRAINT_FOREIGNKEY, d)
  end.

(** [UPDATE bias_flags SET ... WHERE id = ?] *)
Definition update_bias_flag (id : Z) (set : bias_flags.row → bias_flags.row)
    (d : db) : outcome * db :=
  match bias_flags d !! id with
  | None => (Changed 0, d)
  | Some old =>
      let new := set old in
      if negb (check_bias_type (bias_flags.bias_type new)
               && check_bias_severity (bias_flags.bias_severity new))
      then (Failed CONSTRAINT_CHECK, d)
      else if any_row (fun i r =>
                         bool_decide (i ≠ id)
                         && bool_decide (bias_flags.knowledge_id r = bias_flags.knowledge_id new)
                         && bool_decide (bias_flags.bias_type r = bias_flags.bias_type new))
                (bias_flags d)
      then (Failed CONSTRAINT_UNIQUE, d)
      else if bool_decide (bias_flags.knowledge_id new = bias_flags.knowledge_id old)
              || bool_decide (is_Some (knowledge_entries d !! bias_flags.knowledge_id new))
      then (Changed 1, set_bias_flags <[id := new]> d)
      else (Failed CONSTRAINT_FOREIGNKEY, d)
  end.

(** [DELETE FROM bias_flags WHERE id = ?] *)
Definition delete_bias_flag (id : Z) (d : db) : outcome * db :=
  match bias_flags d !! id with
  | None => (Changed 0, d)
  | Some _ => (Changed 1, delete_bias_flag_row id d)
  end.

(** [INSERT INTO optimization_queue ...] *)
Definition insert_queue_item (now : string) (rowid : option Z)
    (v : optimization_queue.values) (d : db) : outcome * db :=
  let new := queue_item_of_values now v in
  match new_rowid "optimization_queue" rowid (optimization_queue d) d with
  | inl e => (Failed e, d)
  | inr id =>
    if negb (check_action_type (optimization_queue.action_type new)
             && check_severity (optimization_queue.severity new)
             && check_status (optimization_queue.status new))
    then (Failed CONSTRAINT_CHECK, d)
    else if decide (is_Some (optimization_queue d !! id))
    then (Failed CONSTRAINT_PRIMARYKEY, d)
    else (Inserted id,
          bump_sequence "optimization_queue" id
            (set_optimization_queue <[id := new]> d))
  end.

(** [UPDATE optimization_queue SET ... WHERE id = ?] *)
Definition update_queue_item (id : Z)
    (set : optimization_queue.row → optimization_queue.row) (d : db) : outcome * db :=
  match optimization_queue d !! id with
  | None => (Changed 0, d)
  | Some old =>
      let new := set old in
      if negb (check_action_type (optimization_queue.action_type new)
               && check_severity (optimization_queue.severity new)
               && check_status (optimization_queue.status new))
      then (Failed CONSTRAINT_CHECK, d)
      else (Changed 1, set_optimization_queue <[id := new]> d)
  end.

(** The statements the store receives. *)
Inductive stmt : Type :=
  | InsertChannel (rowid : option Z) (v : channels.values)
  | DeleteChannel (id : Z)
  | InsertVideo (rowid : option Z) (v : videos.values)
  | UpdateVideo (id : Z) (set : videos.row → videos.row)
  | DeleteVideo (id : Z)
  | InsertTranscript (rowid : option Z) (v : transcripts.values)
  | UpdateTranscript (id : Z) (set : transcripts.row → transcripts.row)
  | DeleteTranscript (id : Z)
  | InsertKnowledge (rowid : option Z) (v : knowledge_entries.values)
  | UpdateKnowledge (id : Z) (set : knowledge_entries.row → knowledge_entries.row)
  | DeleteKnowledge (id : Z)
  | InsertLog (rowid : option Z) (v : processing_log.values)
  | InsertBiasFlag (rowid : option Z) (v : bias_flags.values)
  | UpdateBiasFlag (id : Z) (set : bias_flags.row → bias_flags.row)
  | DeleteBiasFlag (id : Z)
  | InsertQueueItem (rowid : option Z) (v : optimization_queue.values)
  | UpdateQueueItem (id : Z) (set : optimization_queue.row → optimization_queue.row).

(** One statement, run at time [now] (the value of [datetime('now')]). *)
Definition exec (now : string) (s : stmt) (d : db) : outcome * db :=
  match s with
  | InsertChannel rowid v => insert_channel now rowid v d
  | DeleteChannel id => delete_channel id d
  | InsertVideo rowid v => insert_video now rowid v d
  | UpdateVideo id set => update_video id set d
  | DeleteVideo id => delete_video id d
  | InsertTranscript rowid v => insert_transcript now rowid v d
  | UpdateTranscript id set => update_transcript id set d
  | DeleteTranscript id => delete_transcript id d
  | InsertKnowledge rowid v => insert_knowledge now rowid v d
  | UpdateKnowledge id set => update_knowledge id set d
  | DeleteKnowledge id => delete_knowledge id d
  | InsertLog rowid v => insert_log now rowid v d
  | InsertBiasFlag rowid v => insert_bias_flag now rowid v d
  | UpdateBiasFlag id set => update_bias_flag id set d
  | DeleteBiasFlag id => delete_bias_flag id d
  | InsertQueueItem rowid v => insert_queue_item now rowid v d
  | UpdateQueueItem id set => update_queue_item id set d
  end.

(** A history: statements with the time each ran at, oldest first. *)
Fixpoint run (history : list (string * stmt)) (d : db) : db :=
  match history with
  | [] => d
  | (now, s) :: rest => run rest (exec now s d).2
  end.

(** The databases the schema can hold: those a history builds from the
    empty one. *)
Definition reachable (d : db) : Prop := ∃ history, d = run history empty_db.


(** ** Integrity errors *)

(** Modelled from the spec: the failure taxonomy of §7 and the bounded retry
    of §4.1.  The pipeline code that applies them is not under src/; only
    the schema it writes to is. *)
Inductive failure : Type :=
  | TransientExternalFailure
  | PermanentExternalFailure
  | DataIntegrityViolation (e : sql_error)
  | ApprovalStateError.

(** Modelled from the spec: only a transient external failure is retried. *)
Definition retryable (f : failure) : bool :=
  match f with
  | TransientExternalFailure => true
  | _ => false
  end.

(** Modelled from the spec: a step is attempted, and attempted again while
    it fails with a retryable failure and retries are left; the result
    carries the number of attempts made. *)
Fixpoint with_retry {A} (retries : nat) (step : db → (A + failure) * db) (d : db)
    : (A + failure) * db * nat :=
  match step d with
  | (inl a, d') => (inl a, d', 1%nat)
  | (inr f, d') =>
      if retryable f then
        match retries with
        | O => (inr f, d', 1%nat)
        | S n => let '(r, d'', k) := with_retry n step d' in (r, d'', S k)
        end
      else (inr f, d', 1%nat)
  end.

(** Modelled from the spec: a store write as a pipeline step; a constraint
    violation surfaces as a [DataIntegrityViolation] (§7). *)
Definition store_write (now : string) (s : stmt) (d : db)
    : (outcome + failure) * db :=
  match exec now s d with
  | (Failed e, d') => (inr (DataIntegrityViolation e), d')
  | (o, d') => (inl o, d')
  end.

(** ** The optimization queue's entry point *)

(** Modelled from the spec: the statements of an action run as one unit of
    work (§4.4); if one fails, none is kept. *)
Fixpoint run_atomic (now : string) (plan : list stmt) (d : db) : option db :=
  match plan with
  | [] => Some d
  | s :: rest =>
      match exec now s d with
      | (Failed _, _) => None
      | (_, d') => run_atomic now rest d'
      end
  end.

Section Enqueue.

(** The store mutation that executes an action, a function of the action's
    type, target and details (§4.4).  The executor is application code and
    is not under src/, so it stays a parameter. *)
Variable action_plan : string → string → option Z → option string → db → list stmt.

(** Modelled from the spec: [enqueue(actionType, severity, target,
    description, details)] of §4.4; the queue's code is not under src/.
    With severity [auto] the action runs at once and the item is recorded as
    [executed], or as [failed] when the run failed; otherwise the item is
    inserted without a status, which the schema defaults to [pending]. *)
Definition enqueue (now action_type severity target_type : string)
    (target_id : option Z) (description : string) (details : option string)
    (d : db) : outcome * db :=
  let item status :=
    {| optimization_queue.action_type' := action_type;
       optimization_queue.severity' := Some severity;
       optimization_queue.status' := status;
       optimization_queue.target_type' := target_type;
       optimization_queue.target_id' := target_id;
       optimization_queue.description' := description;
       optimization_queue.details' := details;
       optimization_queue.created_at' := None;
       optimization_queue.resolved_at' := None;
       optimization_queue.resolved_by' := None |} in
  if decide (severity = "auto") then
    match run_atomic now
            (action_plan action_type target_type target_id details d) d with
    | Some d' => insert_queue_item now None (item (Some "executed")) d'
    | None => insert_queue_item now None (item (Some "failed")) d
    end
  else insert_queue_item now None (item None) d.

End Enqueue.

(** ** The bias review layer's write *)

(** Modelled from the spec: the lookup behind the upsert of §4.3, the
    stored flag of an entry for a bias type, if there is one. *)
Definition find_flag (knowledge_id : Z) (bias_type : string) (d : db) : option Z :=
  fst <$> head (rows_where
                  (fun b => bool_decide (bias_flags.knowledge_id b = knowledge_id)
                            && bool_decide (bias_flags.bias_type b = bias_type))
                  (bias_flags d)).

(** Modelled from the spec: what the upsert of §4.3 writes over a stored
    flag, its severity and notes taken from the new scan result. *)
Definition rescored (v : bias_flags.values) (old : bias_flags.row) : bias_flags.row :=
  {| bias_flags.knowledge_id := bias_flags.knowledge_id old;
     bias_flags.bias_type := bias_flags.bias_type old;
     bias_flags.bias_severity := default "medium" (bias_flags.bias_severity' v);
     bias_flags.brand_names := bias_flags.brand_names old;
     bias_flags.bias_notes := bias_flags.bias_notes' v;
     bias_flags.detected_by := bias_flags.detected_by old;
     bias_flags.created_at := bias_flags.created_at old |}.

(** Modelled from the spec: the upsert of §4.3, keyed by
    (entry, bias_type); the bias review code is not under src/.  A result
    for a pair that is already flagged updates that row's severity and
    notes; any other result is inserted. *)
Definition upsert_bias_flag (now : string) (v : bias_flags.values) (d : db)
    : outcome * db :=
  match find_flag (bias_flags.knowledge_id' v) (bias_flags.bias_type' v) d with
  | Some id => update_bias_flag id (rescored v) d
  | None => insert_bias_flag now None v d
  end.

(** No two stored flags share their (knowledge_id, bias_type). *)
Definition bias_unique (d : db) : Prop :=
  ∀ i j bi bj,
    bias_flags d !! i = Some bi → bias_flags d !! j = Some bj →
    bias_flags.knowledge_id bi = bias_flags.knowledge_id bj →
    bias_flags.bias_type bi = bias_flags.bias_type bj →
    i = j.

(** Every stored flag passes the table's [CHECK]s. *)
Definition bias_checked (d : db) : Prop :=
  ∀ i b, bias_flags d !! i = Some b →
    check_bias_type (bias_flags.bias_type b) = true
    ∧ check_bias_severity (bias_flags.bias_severity b) = true.

Definition entry_checked (k : knowledge_entries.row) : Prop :=
  PrimFloat.leb 0 (knowledge_entries.confidence k) = true
  ∧ PrimFloat.leb (knowledge_entries.confidence k) 1 = true
  ∧ knowledge_entries.entry_type k
    ∈ ["insight"; "tip"; "concept"; "technique"; "warning"; "resource"; "quote"].

(** ** The indexes against their source tables *)

(** The indexed columns of each source table, as the [CREATE VIRTUAL TABLE]
    statements list them. *)
Definition knowledge_indexed (k : knowledge_entries.row) : list (option string) :=
  [Some (knowledge_entries.title k); Some (knowledge_entries.content k);
   knowledge_entries.source_quote k].
Definition transcript_indexed (t : transcripts.row) : list (option string) :=
  [Some (transcripts.full_text t)].
Definition video_indexed (v : videos.row) : list (option string) :=
  [Some (videos.title v); videos.description v].

(** The index a table's rows call for: one row per source row, with that
    row's indexed columns. *)
Definition index_of {R} (indexed : R → list (option string)) (tbl : gmap Z R)
    : fts_index :=
  (fun kv => (kv.1, indexed kv.2)) <$> map_to_list tbl.

(** An index is in sync when it holds exactly those rows (in any order). *)
Definition fts_synced (d : db) : Prop :=
  knowledge_fts d ≡ₚ index_of knowledge_indexed (knowledge_entries d)
  ∧ transcript_fts d ≡ₚ index_of transcript_indexed (transcripts d)
  ∧ video_fts d ≡ₚ index_of video_indexed (videos d).

(** ** Foreign keys *)

(** The [REFERENCES] clauses below a video: a transcript, a knowledge entry
    and a processing_log row have their video stored, a bias flag has its
    knowledge entry stored. *)
Definition cascade_keys (d : db) : Prop :=
  (∀ i t, transcripts d !! i = Some t →
          is_Some (videos d !! transcripts.video_id t))
  ∧ (∀ i k, knowledge_entries d !! i = Some k →
            is_Some (videos d !! knowledge_entries.video_id k))
  ∧ (∀ i l, processing_log d !! i = Some l →
            is_Some (videos d !! processing_log.video_id l))
  ∧ (∀ i b, bias_flags d !! i = Some b →
            is_Some (knowledge_entries d !! bias_flags.knowledge_id b)).

(** [PRAGMA foreign_keys = ON]: what the five [REFERENCES] clauses ask of a
    database, every child row with its parent stored. *)
Definition foreign_keys (d : db) : Prop :=
  (∀ i v, videos d !! i = Some v → is_Some (channels d !! videos.channel_id v))
  ∧ cascade_keys d.

(** Which statements the triggers cover: all but an update of a
    transcript. *)
Definition covered_by_triggers (s : stmt) : bool :=
  match s with
  | UpdateTranscript _ _ => false
  | _ => true
  end.

(** [UPDATE transcripts SET full_text = ? ...]: the SET clause. *)
Definition set_full_text (text : string) (t : transcripts.row) : transcripts.row :=
  {| transcripts.video_id := transcripts.video_id t;
     transcripts.language_code := transcripts.language_code t;
     transcripts.is_generated := transcripts.is_generated t;
     transcripts.full_text := text;
     transcripts.snippet_data := transcripts.snippet_data t;
     transcripts.word_count := transcripts.word_count t;
     transcripts.created_at := transcripts.created_at t |}.

(** ** Search *)

Section Search.

(** Whether a query matches the indexed columns of a row: FTS5's [MATCH]
    under the [porter unicode61] tokenizer, which is the engine's and not
    this repository's. *)
Variable fts_match : string → list (option string) → bool.

(** [SELECT rowid FROM t_fts WHERE t_fts MATCH q] *)
Definition search (q : string) (idx : fts_index) : list Z :=
  (filter (fun r => fts_match q r.2) idx).*1.

End Search.

(** ** Sample rows *)

Definition sample_channel : channels.values :=
  {| channels.channel_id' := "UC-elk"; channels.channel_name' := "Elk Maven";
     channels.channel_url' := "https://youtube.com/@elk";
     channels.description' := None; channels.subscriber_count' := None;
     channels.video_count' := None; channels.thumbnail_url' := None;
     channels.created_at' := None; channels.updated_at' := None |}.

Definition sample_video (video_id title : string) : videos.values :=
  {| videos.video_id' := video_id; videos.channel_id' := 1; videos.title' := title;
     videos.description' := None; videos.published_at' := None;
     videos.duration_seconds' := None; videos.view_count' := None;
     videos.like_count' := None; videos.thumbnail_url' := None;
     videos.ingestion_status' := None; videos.failure_reason' := None;
     videos.created_at' := None; videos.updated_at' := None |}.

Definition sample_transcript (video : Z) (text : string) : transcripts.values :=
  {| transcripts.video_id' := video; transcripts.language_code' := None;
     transcripts.is_generated' := None; transcripts.full_text' := text;
     transcripts.snippet_data' := "[]"; transcripts.word_count' := 2;
     transcripts.created_at' := None |}.

Definition sample_entry (video : Z) (title : string) (confidence : option float)
    : knowledge_entries.values :=
  {| knowledge_entries.video_id' := video; knowledge_entries.entry_type' := "tip";
     knowledge_entries.title' := title;
     knowledge_entries.content' := "Bugle at first light";
     knowledge_entries.source_start_time' := None;
     knowledge_entries.source_end_time' := None;
     knowledge_entries.source_quote' := None;
     knowledge_entries.confidence' := confidence;
     knowledge_entries.chunk_index' := Some 0;
     knowledge_entries.created_at' := None |}.

Definition sample_log (video : Z) : processing_log.values :=
  {| processing_log.video_id' := video; processing_log.step' := "fetch_transcript";
     processing_log.chunk_index' := None; processing_log.status' := "started";
     processing_log.tokens_used' := None; processing_log.error_message' := None;
     processing_log.started_at' := None; processing_log.completed_at' := None |}.

Definition sample_flag (entry : Z) (bias_type : string) (severity : option string)
    : bias_flags.values :=
  {| bias_flags.knowledge_id' := entry; bias_flags.bias_type' := bias_type;
     bias_flags.bias_severity' := severity; bias_flags.brand_names' := None;
     bias_flags.bias_notes' := "mentions a sponsor";
     bias_flags.detected_by' := None; bias_flags.created_at' := None |}.

Definition sample_item (severity : option string) : optimization_queue.values :=
  {| optimization_queue.action_type' := "delete_entry";
     optimization_queue.severity' := severity;
     optimization_queue.status' := None;
     optimization_queue.target_type' := "knowledge_entry";
     optimization_queue.target_id' := Some 1;
     optimization_queue.description' := "duplicate entry";
     optimization_queue.details' := None;
     optimization_queue.created_at' := None;
     optimization_queue.resolved_at' := None;
     optimization_queue.resolved_by' := None |}.

(** One channel with one video, its transcript, one knowledge entry with a
    bias flag, one processing_log row, and one queue item about the entry. *)
Definition sample_db : db :=
  run [("09:00", InsertChannel None sample_channel);
       ("09:01", InsertVideo None (sample_video "dQw4" "Elk calling basics"));
       ("09:02", InsertLog None (sample_log 1));
       ("09:03", InsertTranscript None (sample_transcript 1 "bugle early"));
       ("09:04", InsertKnowledge None (sample_entry 1 "Call early" None));
       ("09:05", InsertBiasFlag None (sample_flag 1 "sponsored" None));
       ("09:06", InsertQueueItem None (sample_item None))]
    empty_db.


(** ** Rows, rowids and folds *)

Lemma any_row_true {R} (P : Z → R → bool) (tbl : gmap Z R) :
  any_row P tbl = true ↔ ∃ i r, tbl !! i = Some r ∧ P i r = true.
Proof.
  unfold any_row. rewrite existsb_exists. split.
  - intros [[i r] [Hin HP]]. exists i, r. split; [|done].
    apply elem_of_map_to_list. by apply list_elem_of_In.
  - intros (i & r & Hl & HP). exists (i, r). split; [|done].
    apply list_elem_of_In. by apply elem_of_map_to_list.
Qed.

Lemma any_row_false {R} (P : Z → R → bool) (tbl : gmap Z R) i r :
  any_row P tbl = false → tbl !! i = Some r → P i r = false.
Proof.
  intros Hany Hl. destruct (P i r) eqn:HP; [|done].
  assert (any_row P tbl = true) as Ht by (apply any_row_true; eauto).
  congruence.
Qed.

Lemma elem_of_rows_where {R} (P : R → bool) (tbl : gmap Z R) i r :
  (i, r) ∈ rows_where P tbl ↔ tbl !! i = Some r ∧ P r = true.
Proof.
  unfold rows_where. rewrite list_elem_of_filter, elem_of_map_to_list. cbn.
  split; intros [? ?]; split; try done; by destruct (P r).
Qed.

Lemma NoDup_rows_where {R} (P : R → bool) (tbl : gmap Z R) :
  NoDup (rows_where P tbl).*1.
Proof.
  unfold rows_where. eapply NoDup_fmap_fst.
  - intros i r1 r2 H1%list_elem_of_filter H2%list_elem_of_filter.
    destruct H1 as [_ H1], H2 as [_ H2].
    apply elem_of_map_to_list in H1, H2. congruence.
  - apply NoDup_filter, NoDup_map_to_list.
Qed.






(** ** Cascades that succeed *)

(** A field that no row delete of a cascade touches is the same after it. *)
Lemma delete_rows_frame {R X} (proj : db → X) (delete_row : Z → R → db → option db)
    (rows : list (Z * R)) (d d' : db) :
  (∀ i r d d', delete_row i r d = Some d' → proj d' = proj d) →
  delete_rows delete_row rows d = Some d' → proj d' = proj d.
Proof.
  intros Hf. revert d'. induction rows as [|[i r] rows IH]; intros d' Hd'.
  - by injection Hd' as <-.
  - cbn in Hd'. apply bind_Some in Hd' as (d1 & Hd1 & Hd').
    rewrite (Hf _ _ _ _ Hd'). by apply IH.
Qed.

(** A field that every row delete changes by [g] is changed by all of them
    in turn. *)
Lemma delete_rows_project {R X} (proj : db → X) (delete_row : Z → R → db → option db)
    (g : Z * R → X → X) (rows : list (Z * R)) (d d' : db) :
  (∀ i r d d', delete_row i r d = Some d' → proj d' = g (i, r) (proj d)) →
  delete_rows delete_row rows d = Some d' → proj d' = foldr g (proj d) rows.
Proof.
  intros Hf. revert d'. induction rows as [|[i r] rows IH]; intros d' Hd'.
  - by injection Hd' as <-.
  - cbn in Hd'. apply bind_Some in Hd' as (d1 & Hd1 & Hd').
    rewrite (Hf _ _ _ _ Hd'). cbn. f_equal. by apply IH.
Qed.

(** A field that a row delete changes by [g], when [g] can fail. *)
Lemma delete_rows_project_option {R X} (proj : db → X)
    (delete_row : Z → R → db → option db)
    (g : Z * R → X → option X) (rows : list (Z * R)) (d d' : db) :
  (∀ i r d d', delete_row i r d = Some d' → g (i, r) (proj d) = Some (proj d')) →
  delete_rows delete_row rows d = Some d' →
  foldr (fun kv acc => acc ≫= g kv) (Some (proj d)) rows = Some (proj d').
Proof.
  intros Hf. revert d'. induction rows as [|[i r] rows IH]; intros d' Hd'.
  - by injection Hd' as <-.
  - cbn in Hd'. apply bind_Some in Hd' as (d1 & Hd1 & Hd').
    cbn. rewrite (IH _ Hd1). cbn. by apply Hf.
Qed.

Lemma lookup_foldr_delete {R} (l : list (Z * R)) (tbl : gmap Z R) (i : Z) :
  foldr (fun kv m => delete kv.1 m) tbl l !! i
  = if decide (i ∈ l.*1) then None else tbl !! i.
Proof.
  induction l as [|[j r] l IH]; cbn; [done|].
  destruct (decide (j = i)) as [->|Hne].
  - rewrite lookup_delete_eq. rewrite decide_True; [done|]. apply elem_of_cons; auto.
  - rewrite lookup_delete_ne by done. rewrite IH.
    destruct (decide (i ∈ l.*1)) as [Hin|Hnin].
    + rewrite decide_True; [done|]. apply elem_of_cons; auto.
    + rewrite decide_False; [done|]. intros [?|?]%elem_of_cons; congruence.
Qed.

Lemma foldr_delete_subseteq {R} (l : list (Z * R)) (tbl : gmap Z R) :
  foldr (fun kv m => delete kv.1 m) tbl l ⊆ tbl.
Proof.
  apply map_subseteq_spec. intros i r. rewrite lookup_foldr_delete.
  by destruct (decide _).
Qed.

(** ** What a successful row delete leaves in each table *)

Lemma knowledge_ad_Some id old d d' :
  knowledge_ad id old d = Some d' →
  ∃ idx, fts_delete id [Some (knowledge_entries.title old);
                        Some (knowledge_entries.content old);
                        knowledge_entries.source_quote old] (knowledge_fts d)
         = Some idx
         ∧ d' = set_knowledge_fts (fun _ => idx) d.
Proof.
  unfold knowledge_ad. intros (idx & Hidx & [= <-])%bind_Some. eauto.
Qed.

Lemma transcript_ad_Some id old d d' :
  transcript_ad id old d = Some d' →
  ∃ idx, fts_delete id [Some (transcripts.full_text old)] (transcript_fts d) = Some idx
         ∧ d' = set_transcript_fts (fun _ => idx) d.
Proof.
  unfold transcript_ad. intros (idx & Hidx & [= <-])%bind_Some. eauto.
Qed.

Lemma video_ad_Some id old d d' :
  video_ad id old d = Some d' →
  ∃ idx, fts_delete id [Some (videos.title old); videos.description old] (video_fts d)
         = Some idx
         ∧ d' = set_video_fts (fun _ => idx) d.
Proof.
  unfold video_ad. intros (idx & Hidx & [= <-])%bind_Some. eauto.
Qed.

Lemma delete_transcript_row_Some id old d d' :
  delete_transcript_row id old d = Some d' →
  ∃ idx, fts_delete id [Some (transcripts.full_text old)] (transcript_fts d) = Some idx
         ∧ d' = set_transcript_fts (fun _ => idx) (set_transcripts (delete id) d).
Proof.
  unfold delete_transcript_row.
  intros (idx & Hidx & ->)%transcript_ad_Some. by exists idx.
Qed.

Lemma delete_knowledge_row_Some id old d d' :
  delete_knowledge_row id old d = Some d' →
  ∃ idx, fts_delete id [Some (knowledge_entries.title old);
                        Some (knowledge_entries.content old);
                        knowledge_entries.source_quote old] (knowledge_fts d)
         = Some idx
         ∧ d' = set_knowledge_fts (fun _ => idx)
                  (set_bias_flags
                     (filter (fun kv => bias_flags.knowledge_id kv.2 ≠ id))
                     (set_knowledge_entries (delete id) d)).
Proof.
  unfold delete_knowledge_row.
  intros (idx & Hidx & ->)%knowledge_ad_Some. by exists idx.
Qed.

(** The steps of a video's delete, when all succeed. *)
Lemma delete_video_row_Some id old d d' :
  delete_video_row id old d = Some d' →
  ∃ d1 d2 idx,
    delete_rows delete_transcript_row
      (rows_where (fun t => bool_decide (transcripts.video_id t = id)) (transcripts d))
      (set_videos (delete id) d) = Some d1
    ∧ delete_rows delete_knowledge_row
        (rows_where (fun k => bool_decide (knowledge_entries.video_id k = id))
           (knowledge_entries d1)) d1 = Some d2
    ∧ fts_delete id [Some (videos.title old); videos.description old] (video_fts d2)
      = Some idx
    ∧ d' = set_video_fts (fun _ => idx)
             (set_processing_log
                (filter (fun kv => processing_log.video_id kv.2 ≠ id)) d2).
Proof.
  unfold delete_video_row.
  intros (d1 & Hd1 & (d2 & Hd2 & Hv)%bind_Some)%bind_Some.
  apply video_ad_Some in Hv as (idx & Hidx & ->). eauto 10.
Qed.

(** A row delete of a cascade leaves alone the fields it does not name. *)
Ltac row_frame :=
  let H := fresh in
  intros ? ? ? ? H;
  first [apply delete_transcript_row_Some in H as (? & _ & ->)
        |apply delete_knowledge_row_Some in H as (? & _ & ->)];
  reflexivity.

Lemma delete_video_row_videos id old d d' :
  delete_video_row id old d = Some d' → videos d' = delete id (videos d).
Proof.
  intros (d1 & d2 & idx & H1 & H2 & _ & ->)%delete_video_row_Some.
  cbn [videos set_video_fts set_processing_log].
  rewrite (delete_rows_frame videos delete_knowledge_row _ _ _ ltac:(row_frame) H2).
  by rewrite (delete_rows_frame videos delete_transcript_row _ _ _ ltac:(row_frame) H1).
Qed.

Lemma delete_video_row_channels id old d d' :
  delete_video_row id old d = Some d' → channels d' = channels d.
Proof.
  intros (d1 & d2 & idx & H1 & H2 & _ & ->)%delete_video_row_Some.
  cbn [channels set_video_fts set_processing_log].
  rewrite (delete_rows_frame channels delete_knowledge_row _ _ _ ltac:(row_frame) H2).
  by rewrite (delete_rows_frame channels delete_transcript_row _ _ _ ltac:(row_frame) H1).
Qed.


Lemma delete_video_row_sqlite_sequence id old d d' :
  delete_video_row id old d = Some d' → sqlite_sequence d' = sqlite_sequence d.
Proof.
  intros (d1 & d2 & idx & H1 & H2 & _ & ->)%delete_video_row_Some.
  cbn [sqlite_sequence set_video_fts set_processing_log].
  rewrite (delete_rows_frame sqlite_sequence delete_knowledge_row _ _ _ ltac:(row_frame) H2).
  by rewrite (delete_rows_frame sqlite_sequence delete_transcript_row _ _ _ ltac:(row_frame) H1).
Qed.

Lemma delete_video_row_processing_log id old d d' :
  delete_video_row id old d = Some d' →
  processing_log d'
  = filter (fun kv => processing_log.video_id kv.2 ≠ id) (processing_log d).
Proof.
  intros (d1 & d2 & idx & H1 & H2 & _ & ->)%delete_video_row_Some.
  cbn [processing_log set_video_fts set_processing_log].
  rewrite (delete_rows_frame processing_log delete_knowledge_row _ _ _ ltac:(row_frame) H2).
  by rewrite (delete_rows_frame processing_log delete_transcript_row _ _ _ ltac:(row_frame) H1).
Qed.

Lemma delete_video_row_transcripts id old d d' :
  delete_video_row id old d = Some d' →
  transcripts d'
  = foldr (fun kv m => delete kv.1 m) (transcripts d)
      (rows_where (fun t => bool_decide (transcripts.video_id t = id)) (transcripts d)).
Proof.
  intros (d1 & d2 & idx & H1 & H2 & _ & ->)%delete_video_row_Some.
  cbn [transcripts set_video_fts set_processing_log].
  rewrite (delete_rows_frame transcripts delete_knowledge_row _ _ _ ltac:(row_frame) H2).
  apply (delete_rows_project transcripts _ (fun kv m => delete kv.1 m)) in H1;
    [done|].
  intros i r d0 d0' (? & _ & ->)%delete_transcript_row_Some. reflexivity.
Qed.

Lemma delete_video_row_knowledge_entries id old d d' :
  delete_video_row id old d = Some d' →
  knowledge_entries d'
  = foldr (fun kv m => delete kv.1 m) (knowledge_entries d)
      (rows_where (fun k => bool_decide (knowledge_entries.video_id k = id))
         (knowledge_entries d)).
Proof.
  intros (d1 & d2 & idx & H1 & H2 & _ & ->)%delete_video_row_Some.
  cbn [knowledge_entries set_video_fts set_processing_log].
  pose proof (delete_rows_frame knowledge_entries delete_transcript_row _ _ _ ltac:(row_frame) H1) as E1.
  cbn [knowledge_entries set_videos] in E1.
  apply (delete_rows_project knowledge_entries _ (fun kv m => delete kv.1 m)) in H2.
  - by rewrite H2, E1.
  - intros i r d0 d0' (? & _ & ->)%delete_knowledge_row_Some. reflexivity.
Qed.

Lemma delete_video_row_bias_flags id old d d' :
  delete_video_row id old d = Some d' →
  bias_flags d'
  = foldr (fun kv m => filter (fun b => bias_flags.knowledge_id b.2 ≠ kv.1) m)
      (bias_flags d)
      (rows_where (fun k => bool_decide (knowledge_entries.video_id k = id))
         (knowledge_entries d)).
Proof.
  intros (d1 & d2 & idx & H1 & H2 & _ & ->)%delete_video_row_Some.
  cbn [bias_flags set_video_fts set_processing_log].
  pose proof (delete_rows_frame knowledge_entries delete_transcript_row _ _ _ ltac:(row_frame) H1) as E1.
  pose proof (delete_rows_frame bias_flags delete_transcript_row _ _ _ ltac:(row_frame) H1) as E2.
  cbn [knowledge_entries bias_flags set_videos] in E1, E2.
  apply (delete_rows_project bias_flags _
           (fun kv m => filter (fun b => bias_flags.knowledge_id b.2 ≠ kv.1) m)) in H2.
  - by rewrite H2, E1, E2.
  - intros i r d0 d0' (? & _ & ->)%delete_knowledge_row_Some. reflexivity.
Qed.

Lemma lookup_foldr_filter_flags (l : list (Z * knowledge_entries.row))
    (m : gmap Z bias_flags.row) (i : Z) (b : bias_flags.row) :
  foldr (fun kv m => filter (fun b => bias_flags.knowledge_id b.2 ≠ kv.1) m) m l !! i
  = Some b
  ↔ m !! i = Some b ∧ bias_flags.knowledge_id b ∉ l.*1.
Proof.
  induction l as [|[j k] l IH]; cbn.
  - split; [intros ?; split; [done|apply not_elem_of_nil]|tauto].
  - rewrite map_lookup_filter_Some, IH. cbn. rewrite not_elem_of_cons. tauto.
Qed.

Lemma knowledge_au_Some id old n new d d' :
  knowledge_au id old n new d = Some d' →
  ∃ idx, d' = set_knowledge_fts
                (fts_insert n [Some (knowledge_entries.title new);
                               Some (knowledge_entries.content new);
                               knowledge_entries.source_quote new])
                (set_knowledge_fts (fun _ => idx) d).
Proof.
  unfold knowledge_au. intros (idx & _ & [= <-])%bind_Some. by exists idx.
Qed.

Lemma video_au_Some id old n new d d' :
  video_au id old n new d = Some d' →
  ∃ idx, d' = set_video_fts
                (fts_insert n [Some (videos.title new); videos.description new])
                (set_video_fts (fun _ => idx) d).
Proof.
  unfold video_au. intros (idx & _ & [= <-])%bind_Some. by exists idx.
Qed.

(** ** Index maintenance, one row at a time *)

Lemma fts_remove_Some rowid cols idx idx' :
  fts_remove rowid cols idx = Some idx' → idx ≡ₚ (rowid, cols) :: idx'.
Proof.
  revert idx'. induction idx as [|r idx IH]; intros idx'; cbn; [done|].
  destruct (decide (r = (rowid, cols))) as [->|Hne].
  - by intros [= <-].
  - intros (idx1 & H1 & ->)%fmap_Some. rewrite (IH _ H1). apply perm_swap.
Qed.

Lemma fts_remove_elem rowid cols idx :
  (rowid, cols) ∈ idx → is_Some (fts_remove rowid cols idx).
Proof.
  induction idx as [|r idx IH]; [by intros ?%elem_of_nil|].
  cbn. destruct (decide (r = (rowid, cols))) as [->|Hne]; [by eexists|].
  intros [?|Hin]%elem_of_cons; [congruence|].
  destruct (IH Hin) as [idx' ->]. by eexists.
Qed.

(** A 'delete' with the values that were indexed takes that entry out,
    whatever the engine does otherwise. *)
Lemma fts_delete_found rowid cols idx :
  (rowid, cols) ∈ idx →
  ∃ idx', fts_delete rowid cols idx = Some idx' ∧ idx ≡ₚ (rowid, cols) :: idx'.
Proof.
  intros [idx' Hr]%fts_remove_elem. exists idx'. unfold fts_delete. rewrite Hr.
  split; [done|]. by apply fts_remove_Some.
Qed.

Lemma elem_of_index_of {R} (indexed : R → list (option string)) (tbl : gmap Z R)
    (i : Z) (cols : list (option string)) :
  (i, cols) ∈ index_of indexed tbl ↔ ∃ r, tbl !! i = Some r ∧ cols = indexed r.
Proof.
  unfold index_of. rewrite list_elem_of_fmap. split.
  - intros ([j r] & [= -> ->] & Hin). exists r. split; [|done].
    by apply elem_of_map_to_list.
  - intros (r & Hr & ->). exists (i, r). split; [done|].
    by apply elem_of_map_to_list.
Qed.

Lemma index_of_insert {R} (indexed : R → list (option string)) tbl id new idx :
  tbl !! id = None →
  idx ≡ₚ index_of indexed tbl →
  fts_insert id (indexed new) idx ≡ₚ index_of indexed (<[id := new]> tbl).
Proof.
  intros Hfresh Hidx. unfold fts_insert, index_of.
  rewrite map_to_list_insert by done. cbn.
  rewrite <- Permutation_cons_append. by constructor.
Qed.

Lemma index_of_delete {R} (indexed : R → list (option string)) tbl id old idx :
  tbl !! id = Some old →
  idx ≡ₚ index_of indexed tbl →
  ∃ idx', fts_delete id (indexed old) idx = Some idx'
          ∧ idx' ≡ₚ index_of indexed (delete id tbl).
Proof.
  intros Hold Hidx.
  destruct (fts_delete_found id (indexed old) idx) as (idx' & Hdel & Hperm).
  { rewrite Hidx. apply elem_of_index_of. eauto. }
  exists idx'. split; [done|].
  apply (Permutation_cons_inv (a := (id, indexed old))).
  rewrite <- Hperm, Hidx. unfold index_of.
  rewrite <- (insert_delete_id tbl id old) at 1 by done.
  by rewrite map_to_list_insert by apply lookup_delete_eq.
Qed.

Lemma index_of_update {R} (indexed : R → list (option string)) tbl id old new idx :
  tbl !! id = Some old →
  idx ≡ₚ index_of indexed tbl →
  ∃ idx', fts_delete id (indexed old) idx = Some idx'
          ∧ fts_insert id (indexed new) idx' ≡ₚ index_of indexed (<[id := new]> tbl).
Proof.
  intros Hold Hidx.
  destruct (index_of_delete indexed tbl id old idx Hold Hidx) as (idx' & Hdel & Hperm).
  exists idx'. split; [done|]. rewrite <- insert_delete_eq.
  apply index_of_insert; [apply lookup_delete_eq|done].
Qed.

(** ** Index maintenance by the statements *)

(** A cascade over rows that are all there succeeds and keeps an invariant,
    when each row delete does. *)
Lemma delete_rows_invariant {R} (inv : db → Prop) (tbl : db → gmap Z R)
    (delete_row : Z → R → db → option db) (rows : list (Z * R)) (d : db) :
  (∀ i r d, inv d → tbl d !! i = Some r →
     ∃ d', delete_row i r d = Some d' ∧ inv d' ∧ tbl d' = delete i (tbl d)) →
  NoDup rows.*1 →
  (∀ i r, (i, r) ∈ rows → tbl d !! i = Some r) →
  inv d →
  ∃ d', delete_rows delete_row rows d = Some d'
        ∧ inv d'
        ∧ tbl d' = foldr (fun kv m => delete kv.1 m) (tbl d) rows.
Proof.
  intros Hstep Hnd Hin Hd. unfold delete_rows.
  induction rows as [|[i r] rows IH].
  { exists d. done. }
  cbn [fmap list_fmap fst] in Hnd. apply NoDup_cons in Hnd as [Hni Hnd].
  destruct IH as (d1 & Hd1 & Hinv1 & Htbl1);
    [done|by intros j r' Hj; apply Hin, list_elem_of_further|].
  destruct (Hstep i r d1 Hinv1) as (d' & Hd' & Hinv' & Htbl').
  { rewrite Htbl1, lookup_foldr_delete, decide_False by done.
    apply Hin, list_elem_of_here. }
  exists d'. cbn [foldr fst snd]. rewrite Hd1. cbn [mbind option_bind].
  split; [done|]. split; [done|]. by rewrite Htbl', Htbl1.
Qed.

Lemma delete_transcript_row_synced id old d :
  transcript_fts d ≡ₚ index_of transcript_indexed (transcripts d) →
  transcripts d !! id = Some old →
  ∃ d', delete_transcript_row id old d = Some d'
        ∧ transcript_fts d' ≡ₚ index_of transcript_indexed (transcripts d')
        ∧ transcripts d' = delete id (transcripts d).
Proof.
  intros Ht Hold.
  destruct (index_of_delete transcript_indexed _ _ _ _ Hold Ht) as (idx & Hdel & Hp).
  exists (set_transcript_fts (fun _ => idx) (set_transcripts (delete id) d)).
  unfold delete_transcript_row, transcript_ad. cbn [transcript_fts set_transcripts].
  unfold transcript_indexed in Hdel. rewrite Hdel. done.
Qed.

Lemma delete_knowledge_row_synced id old d :
  knowledge_fts d ≡ₚ index_of knowledge_indexed (knowledge_entries d) →
  knowledge_entries d !! id = Some old →
  ∃ d', delete_knowledge_row id old d = Some d'
        ∧ knowledge_fts d' ≡ₚ index_of knowledge_indexed (knowledge_entries d')
        ∧ knowledge_entries d' = delete id (knowledge_entries d).
Proof.
  intros Hk Hold.
  destruct (index_of_delete knowledge_indexed _ _ _ _ Hold Hk) as (idx & Hdel & Hp).
  exists (set_knowledge_fts (fun _ => idx)
            (set_bias_flags (filter (fun kv => bias_flags.knowledge_id kv.2 ≠ id))
               (set_knowledge_entries (delete id) d))).
  unfold delete_knowledge_row, knowledge_ad.
  cbn [knowledge_fts set_knowledge_entries set_bias_flags].
  unfold knowledge_indexed in Hdel. rewrite Hdel. done.
Qed.

(** On indexes that are in sync, deleting a video succeeds and leaves them
    in sync. *)
Lemma delete_video_row_synced id old d :
  videos d !! id = Some old → fts_synced d →
  ∃ d', delete_video_row id old d = Some d' ∧ fts_synced d'.
Proof.
  intros Hold (Hk & Ht & Hv). unfold delete_video_row.
  destruct (delete_rows_invariant
              (fun d => transcript_fts d ≡ₚ index_of transcript_indexed (transcripts d))
              transcripts delete_transcript_row
              (rows_where (fun t => bool_decide (transcripts.video_id t = id))
                 (transcripts (set_videos (delete id) d)))
              (set_videos (delete id) d))
    as (d1 & Hd1 & Ht1 & _).
  { intros i r d0. apply delete_transcript_row_synced. }
  { apply NoDup_rows_where. }
  { intros i r Hin. by apply elem_of_rows_where in Hin as [? _]. }
  { exact Ht. }
  rewrite Hd1. cbn [mbind option_bind].
  pose proof (delete_rows_frame knowledge_entries delete_transcript_row _ _ _
                ltac:(row_frame) Hd1) as Ek1.
  pose proof (delete_rows_frame knowledge_fts delete_transcript_row _ _ _
                ltac:(row_frame) Hd1) as Ekf1.
  pose proof (delete_rows_frame videos delete_transcript_row _ _ _
                ltac:(row_frame) Hd1) as Ev1.
  pose proof (delete_rows_frame video_fts delete_transcript_row _ _ _
                ltac:(row_frame) Hd1) as Evf1.
  cbn [knowledge_entries knowledge_fts videos video_fts set_videos] in Ek1, Ekf1, Ev1, Evf1.
  destruct (delete_rows_invariant
              (fun d => knowledge_fts d ≡ₚ index_of knowledge_indexed (knowledge_entries d))
              knowledge_entries delete_knowledge_row
              (rows_where (fun k => bool_decide (knowledge_entries.video_id k = id))
                 (knowledge_entries d1))
              d1)
    as (d2 & Hd2 & Hk2 & _).
  { intros i r d0. apply delete_knowledge_row_synced. }
  { apply NoDup_rows_where. }
  { intros i r Hin. by apply elem_of_rows_where in Hin as [? _]. }
  { by rewrite Ek1, Ekf1. }
  rewrite Hd2. cbn [mbind option_bind].
  pose proof (delete_rows_frame transcripts delete_knowledge_row _ _ _
                ltac:(row_frame) Hd2) as Et2.
  pose proof (delete_rows_frame transcript_fts delete_knowledge_row _ _ _
                ltac:(row_frame) Hd2) as Etf2.
  pose proof (delete_rows_frame videos delete_knowledge_row _ _ _
                ltac:(row_frame) Hd2) as Ev2.
  pose proof (delete_rows_frame video_fts delete_knowledge_row _ _ _
                ltac:(row_frame) Hd2) as Evf2.
  destruct (index_of_delete video_indexed _ _ _ _ Hold Hv) as (idx & Hdel & Hp).
  unfold video_ad. cbn [video_fts set_processing_log].
  unfold video_indexed in Hdel. rewrite Evf2, Evf1, Hdel. cbn [mbind option_bind].
  eexists. split; [reflexivity|]. unfold fts_synced.
  cbn [knowledge_fts knowledge_entries transcript_fts transcripts video_fts videos
       set_video_fts set_processing_log].
  split; [done|]. split; [by rewrite Et2, Etf2|]. by rewrite Ev2, Ev1.
Qed.

Lemma delete_channel_row_synced id d :
  fts_synced d → ∃ d', delete_channel_row id d = Some d' ∧ fts_synced d'.
Proof.
  intros Hs. unfold delete_channel_row.
  destruct (delete_rows_invariant fts_synced videos delete_video_row
              (rows_where (fun v => bool_decide (videos.channel_id v = id))
                 (videos (set_channels (delete id) d)))
              (set_channels (delete id) d))
    as (d' & Hd' & Hs' & _).
  - intros i r d0 Hd0 Hr.
    destruct (delete_video_row_synced i r d0 Hr Hd0) as (d1 & Hd1 & Hs1).
    exists d1. split; [done|]. split; [done|]. by eapply delete_video_row_videos.
  - apply NoDup_rows_where.
  - intros i r Hin. by apply elem_of_rows_where in Hin as [? _].
  - exact Hs.
  - eauto.
Qed.

Ltac project_db :=
  unfold fts_synced;
  cbn [snd channels videos transcripts knowledge_entries processing_log
       bias_flags optimization_queue knowledge_fts transcript_fts video_fts
       sqlite_sequence set_channels set_videos set_transcripts
       set_knowledge_entries set_processing_log set_bias_flags
       set_optimization_queue set_knowledge_fts set_transcript_fts
       set_video_fts set_sqlite_sequence bump_sequence
       knowledge_ai transcript_ai video_ai delete_bias_flag_row].

Lemma video_au_synced id old new d d' :
  videos d !! id = Some old →
  video_fts d ≡ₚ index_of video_indexed (videos d) →
  video_au id old id new (set_videos <[id := new]> d) = Some d' →
  ∃ idx, idx ≡ₚ index_of video_indexed (<[id := new]> (videos d))
         ∧ d' = set_video_fts (fun _ => idx) (set_videos <[id := new]> d).
Proof.
  intros Hold Hv. unfold video_au. cbn [video_fts set_videos].
  destruct (index_of_update video_indexed _ _ _ new _ Hold Hv) as (idx & Hdel & Hp).
  unfold video_indexed in Hdel. rewrite Hdel. cbn [mbind option_bind].
  intros [= <-]. eexists. split; [exact Hp|]. reflexivity.
Qed.

Lemma knowledge_au_synced id old new d d' :
  knowledge_entries d !! id = Some old →
  knowledge_fts d ≡ₚ index_of knowledge_indexed (knowledge_entries d) →
  knowledge_au id old id new (set_knowledge_entries <[id := new]> d) = Some d' →
  ∃ idx, idx ≡ₚ index_of knowledge_indexed (<[id := new]> (knowledge_entries d))
         ∧ d' = set_knowledge_fts (fun _ => idx)
                  (set_knowledge_entries <[id := new]> d).
Proof.
  intros Hold Hk. unfold knowledge_au. cbn [knowledge_fts set_knowledge_entries].
  destruct (index_of_update knowledge_indexed _ _ _ new _ Hold Hk) as (idx & Hdel & Hp).
  unfold knowledge_indexed in Hdel. rewrite Hdel. cbn [mbind option_bind].
  intros [= <-]. eexists. split; [exact Hp|]. reflexivity.
Qed.

Ltac unfold_stmt :=
  unfold insert_channel, delete_channel, insert_video, update_video, delete_video,
    insert_transcript, update_transcript, delete_transcript, insert_knowledge,
    update_knowledge, delete_knowledge, insert_log, insert_bias_flag,
    update_bias_flag, delete_bias_flag, insert_queue_item, update_queue_item.

(** Every statement that the triggers cover keeps the three indexes in
    sync with their tables. *)
Lemma exec_synced now s d :
  covered_by_triggers s = true → fts_synced d → fts_synced (exec now s d).2.
Proof.
  intros Hs Hd. pose proof Hd as (Hk & Ht & Hv).
  destruct s; try discriminate Hs; cbn [exec]; unfold_stmt;
    try (repeat case_match; cbn [snd]; exact Hd).
  - (* DeleteChannel *)
    destruct (channels d !! id); [|done].
    destruct (delete_channel_row_synced id d Hd) as (d' & -> & Hd'). done.
  - (* InsertVideo *)
    repeat case_match; cbn [snd]; try exact Hd. project_db.
    split; [done|]. split; [done|].
    apply (index_of_insert video_indexed); [|done].
    by apply eq_None_not_Some.
  - (* UpdateVideo *)
    destruct (videos d !! id) eqn:Hold; [|done].
    repeat case_match; cbn [snd]; try exact Hd.
    match goal with
    | H : video_au _ _ _ _ _ = Some _ |- _ =>
        apply (video_au_synced _ _ _ _ _ Hold Hv) in H as (idx & Hv' & ->)
    end.
    project_db. split; [done|]. by split.
  - (* DeleteVideo *)
    destruct (videos d !! id) eqn:Hold; [|done].
    destruct (delete_video_row_synced id _ d Hold Hd) as (d' & -> & Hd'). done.
  - (* InsertTranscript *)
    repeat case_match; cbn [snd]; try exact Hd. project_db.
    split; [done|]. split; [|done].
    apply (index_of_insert transcript_indexed); [|done].
    by apply eq_None_not_Some.
  - (* DeleteTranscript *)
    destruct (transcripts d !! id) eqn:Hold; [|done].
    destruct (delete_transcript_row_synced id _ d Ht Hold) as (d' & Hd' & Ht' & _).
    rewrite Hd'. cbn [snd].
    split; [|split; [done|]].
    + apply delete_transcript_row_Some in Hd' as (idx & _ & ->). exact Hk.
    + apply delete_transcript_row_Some in Hd' as (idx & _ & ->). exact Hv.
  - (* InsertKnowledge *)
    repeat case_match; cbn [snd]; try exact Hd. project_db.
    split; [|done].
    apply (index_of_insert knowledge_indexed); [|done].
    by apply eq_None_not_Some.
  - (* UpdateKnowledge *)
    destruct (knowledge_entries d !! id) eqn:Hold; [|done].
    repeat case_match; cbn [snd]; try exact Hd.
    match goal with
    | H : knowledge_au _ _ _ _ _ = Some _ |- _ =>
        apply (knowledge_au_synced _ _ _ _ _ Hold Hk) in H as (idx & Hk' & ->)
    end.
    project_db. by split.
  - (* DeleteKnowledge *)
    destruct (knowledge_entries d !! id) eqn:Hold; [|done].
    destruct (delete_knowledge_row_synced id _ d Hk Hold) as (d' & Hd' & Hk' & _).
    rewrite Hd'. cbn [snd].
    split; [done|].
    apply delete_knowledge_row_Some in Hd' as (idx & _ & ->). by split.
Qed.

(** An update of a transcript that leaves [full_text] alone keeps the
    indexes in sync as well. *)
Lemma update_transcript_synced id set d :
  (∀ t, transcripts.full_text (set t) = transcripts.full_text t) →
  fts_synced d → fts_synced (update_transcript id set d).2.
Proof.
  intros Hset (Hk & Ht & Hv). unfold update_transcript.
  repeat case_match; cbn [snd]; try done. project_db.
  split; [done|]. split; [|done]. rewrite Ht. unfold index_of.
  match goal with H : transcripts d !! id = Some ?old |- _ =>
    rewrite <- (insert_delete_id (transcripts d) id old H) at 1;
    rewrite <- (insert_delete_eq (transcripts d))
  end.
  rewrite !map_to_list_insert by apply lookup_delete_eq. cbn.
  unfold transcript_indexed. by rewrite Hset.
Qed.

(** ** Cascades *)

Lemma lookup_delete_video_row_transcripts id old d d' i t :
  delete_video_row id old d = Some d' →
  transcripts d' !! i = Some t
  ↔ transcripts d !! i = Some t ∧ transcripts.video_id t ≠ id.
Proof.
  intros Hd. rewrite (delete_video_row_transcripts _ _ _ _ Hd), lookup_foldr_delete.
  destruct (decide _) as [Hin|Hnin].
  - apply list_elem_of_fmap in Hin as ([j t'] & -> & Hin).
    apply elem_of_rows_where in Hin as [Hl Hp%bool_decide_eq_true]. cbn.
    split; [done|]. intros [Ht Hne]. congruence.
  - split; [|tauto]. intros Hl. split; [done|]. intros Heq. apply Hnin.
    apply list_elem_of_fmap. exists (i, t). split; [done|].
    apply elem_of_rows_where. split; [done|]. by apply bool_decide_eq_true.
Qed.

Lemma lookup_delete_video_row_knowledge id old d d' i k :
  delete_video_row id old d = Some d' →
  knowledge_entries d' !! i = Some k
  ↔ knowledge_entries d !! i = Some k ∧ knowledge_entries.video_id k ≠ id.
Proof.
  intros Hd.
  rewrite (delete_video_row_knowledge_entries _ _ _ _ Hd), lookup_foldr_delete.
  destruct (decide _) as [Hin|Hnin].
  - apply list_elem_of_fmap in Hin as ([j k'] & -> & Hin).
    apply elem_of_rows_where in Hin as [Hl Hp%bool_decide_eq_true]. cbn.
    split; [done|]. intros [Hk Hne]. congruence.
  - split; [|tauto]. intros Hl. split; [done|]. intros Heq. apply Hnin.
    apply list_elem_of_fmap. exists (i, k). split; [done|].
    apply elem_of_rows_where. split; [done|]. by apply bool_decide_eq_true.
Qed.


(** ** A failed statement changes nothing *)

Lemma exec_failed_unchanged now s d e d' :
  exec now s d = (Failed e, d') → d' = d.
Proof.
  destruct s; cbn [exec];
    unfold insert_channel, delete_channel, insert_video, update_video, delete_video,
      insert_transcript, update_transcript, delete_transcript, insert_knowledge,
      update_knowledge, delete_knowledge, insert_log, insert_bias_flag,
      update_bias_flag, delete_bias_flag, insert_queue_item, update_queue_item;
    repeat case_match; congruence.
Qed.


(** C7. A second video with a stored video_id, a second transcript for a
    video that has one, and a second bias flag with a stored
    (knowledge_id, bias_type) are all refused with an error and the database
    is the one before; whatever the retry budget, the refused write is
    attempted once and its error is what the caller gets. *)
Theorem integrity_violation_aborts :
  ∀ (now : string) (rowid : option Z) (d : db),
    (∀ v i r, videos d !! i = Some r →
              videos.video_id r = videos.video_id' v →
              ∃ e, insert_video now rowid v d = (Failed e, d))
    ∧ (∀ v i r, transcripts d !! i = Some r →
                transcripts.video_id r = transcripts.video_id' v →
                ∃ e, insert_transcript now rowid v d = (Failed e, d))
    ∧ (∀ v i r, bias_flags d !! i = Some r →
                bias_flags.knowledge_id r = bias_flags.knowledge_id' v →
                bias_flags.bias_type r = bias_flags.bias_type' v →
                ∃ e, insert_bias_flag now rowid v d = (Failed e, d))
    ∧ (∀ s e d', exec now s d = (Failed e, d') →
                 d' = d
                 ∧ ∀ retries, with_retry retries (store_write now s) d
                              = (inr (DataIntegrityViolation e), d, 1%nat)).
Proof.
  intros now rowid d. split; [|split; [|split]].
  - intros v i r Hr Hv. unfold insert_video.
    assert (any_row (fun _ r => bool_decide
              (videos.video_id r = videos.video_id (video_of_values now v)))
              (videos d) = true) as Hany.
    { apply any_row_true. exists i, r. split; [done|]. by apply bool_decide_eq_true. }
    rewrite Hany. repeat case_match; eauto.
  - intros v i r Hr Hv. unfold insert_transcript.
    assert (any_row (fun _ r => bool_decide
              (transcripts.video_id r = transcripts.video_id (transcript_of_values now v)))
              (transcripts d) = true) as Hany.
    { apply any_row_true. exists i, r. split; [done|]. by apply bool_decide_eq_true. }
    rewrite Hany. repeat case_match; eauto.
  - intros v i r Hr Hk Ht. unfold insert_bias_flag.
    assert (any_row (fun _ r =>
              bool_decide (bias_flags.knowledge_id r
                           = bias_flags.knowledge_id (bias_flag_of_values now v))
              && bool_decide (bias_flags.bias_type r
                              = bias_flags.bias_type (bias_flag_of_values now v)))
              (bias_flags d) = true) as Hany.
    { apply any_row_true. exists i, r. split; [done|].
      apply andb_true_iff. split; by apply bool_decide_eq_true. }
    rewrite Hany. repeat case_match; eauto.
  - intros s e d' Hs. pose proof (exec_failed_unchanged _ _ _ _ _ Hs) as ->.
    split; [done|]. intros retries.
    destruct retries; cbn; unfold store_write; by rewrite Hs.
Qed.


(** ** What one statement does to a table *)

Lemma delete_rows_shrinks {R X} (proj : db → gmap Z X)
    (delete_row : Z → R → db → option db) (rows : list (Z * R)) (d d' : db) :
  (∀ i r d d', delete_row i r d = Some d' → proj d' ⊆ proj d) →
  delete_rows delete_row rows d = Some d' → proj d' ⊆ proj d.
Proof.
  intros Hf. revert d'. induction rows as [|[i r] rows IH]; intros d' Hd'.
  - by injection Hd' as <-.
  - cbn in Hd'. apply bind_Some in Hd' as (d1 & Hd1 & Hd').
    etrans; [exact (Hf _ _ _ _ Hd')|by apply IH].
Qed.

Lemma delete_video_row_knowledge_subseteq id old d d' :
  delete_video_row id old d = Some d' →
  knowledge_entries d' ⊆ knowledge_entries d.
Proof.
  intros Hd. rewrite (delete_video_row_knowledge_entries _ _ _ _ Hd).
  apply foldr_delete_subseteq.
Qed.

Lemma foldr_filter_flags_subseteq (l : list (Z * knowledge_entries.row))
    (m : gmap Z bias_flags.row) :
  foldr (fun kv m => filter (fun b => bias_flags.knowledge_id b.2 ≠ kv.1) m) m l ⊆ m.
Proof.
  apply map_subseteq_spec. intros i b Hb.
  by apply lookup_foldr_filter_flags in Hb as [? _].
Qed.

Lemma delete_video_row_bias_flags_subseteq id old d d' :
  delete_video_row id old d = Some d' →
  bias_flags d' ⊆ bias_flags d.
Proof.
  intros Hd. rewrite (delete_video_row_bias_flags _ _ _ _ Hd).
  apply foldr_filter_flags_subseteq.
Qed.

(** A statement leaves in knowledge_entries rows that were there, or writes
    one row that passes the table's [CHECK]s. *)
Lemma exec_knowledge_entries now s d :
  knowledge_entries (exec now s d).2 ⊆ knowledge_entries d
  ∨ ∃ id new,
      knowledge_entries (exec now s d).2 = <[id := new]> (knowledge_entries d)
      ∧ check_entry_type (knowledge_entries.entry_type new) = true
      ∧ check_confidence (knowledge_entries.confidence new) = true.
Proof.
  destruct s; cbn [exec]; unfold_stmt;
    try (repeat case_match; cbn [snd]; left; reflexivity).
  - (* DeleteChannel *)
    left. destruct (channels d !! id); [|done].
    destruct (delete_channel_row id d) as [d'|] eqn:Hd; [|done]. cbn [snd].
    unfold delete_channel_row in Hd.
    apply (delete_rows_shrinks knowledge_entries) in Hd; [done|].
    intros i0 r0 d0 d0'. apply delete_video_row_knowledge_subseteq.
  - (* UpdateVideo *)
    left. repeat case_match; try reflexivity.
    match goal with
    | H : video_au _ _ _ _ _ = Some _ |- _ => apply video_au_Some in H as (idx & ->)
    end. reflexivity.
  - (* DeleteVideo *)
    left. destruct (videos d !! id); [|done].
    destruct (delete_video_row id _ d) as [d'|] eqn:Hd; [|done].
    by apply delete_video_row_knowledge_subseteq in Hd.
  - (* DeleteTranscript *)
    left. destruct (transcripts d !! id); [|done].
    destruct (delete_transcript_row id _ d) as [d'|] eqn:Hd; [|done].
    by apply delete_transcript_row_Some in Hd as (idx & _ & ->).
  - (* InsertKnowledge *)
    repeat case_match; cbn [snd]; try (left; reflexivity).
    right. eexists _, _. split; [reflexivity|].
    by apply andb_true_iff, negb_false_iff.
  - (* UpdateKnowledge *)
    destruct (knowledge_entries d !! id) as [old|]; [|by left].
    destruct (PrimFloat.is_nan _); [by left|].
    destruct (negb _) eqn:Hc; [by left|].
    destruct (_ || _); [|by left].
    destruct (knowledge_au _ _ _ _ _) as [d'|] eqn:Hd; [|by left].
    apply knowledge_au_Some in Hd as (idx & ->).
    right. eexists _, _. split; [reflexivity|].
    by apply andb_true_iff, negb_false_iff.
  - (* DeleteKnowledge *)
    left. destruct (knowledge_entries d !! id); [|done].
    destruct (delete_knowledge_row id _ d) as [d'|] eqn:Hd; [|done].
    apply delete_knowledge_row_Some in Hd as (idx & _ & ->).
    cbn. apply delete_subseteq.
Qed.

(** ** Knowledge entries *)


Lemma checks_entry_checked k :
  check_entry_type (knowledge_entries.entry_type k) = true →
  check_confidence (knowledge_entries.confidence k) = true →
  entry_checked k.
Proof.
  unfold check_entry_type, check_confidence, entry_checked.
  intros Ht%bool_decide_eq_true [H0 H1]%andb_true_iff. done.
Qed.

Lemma run_app (h1 h2 : list (string * stmt)) (d : db) :
  run (h1 ++ h2) d = run h2 (run h1 d).
Proof.
  revert d. induction h1 as [|[now s] h1 IH]; intros d; cbn; [done|]. apply IH.
Qed.

(** Induction on histories, newest statement last. *)
Lemma reachable_ind (P : db → Prop) :
  P empty_db →
  (∀ now s d, reachable d → P d → P (exec now s d).2) →
  ∀ d, reachable d → P d.
Proof.
  intros H0 Hstep d [history ->].
  induction history as [|[now s] history IH] using rev_ind; [done|].
  rewrite run_app. cbn. apply Hstep; [by eexists|done].
Qed.

(** C5. Every stored knowledge entry has a confidence between 0.0 and 1.0
    and one of the seven entry types; an insert or update whose confidence
    is not in that range is refused and changes nothing; and an insert that
    gives no confidence stores the default, 0.8. *)
Theorem knowledge_entry_checks :
  (∀ d, reachable d →
     ∀ i k, knowledge_entries d !! i = Some k → entry_checked k)
  ∧ (∀ now rowid v d c,
       knowledge_entries.confidence' v = Some c →
       PrimFloat.leb 0 c = false ∨ PrimFloat.leb c 1 = false →
       ∃ e, insert_knowledge now rowid v d = (Failed e, d))
  ∧ (∀ id set d old,
       knowledge_entries d !! id = Some old →
       PrimFloat.leb 0 (knowledge_entries.confidence (set old)) = false
       ∨ PrimFloat.leb (knowledge_entries.confidence (set old)) 1 = false →
       ∃ e, update_knowledge id set d = (Failed e, d))
  ∧ (∀ now rowid v d id d',
       knowledge_entries.confidence' v = None →
       insert_knowledge now rowid v d = (Inserted id, d') →
       ∃ k, knowledge_entries d' !! id = Some k
            ∧ knowledge_entries.confidence k = default_confidence)
  ∧ PrimFloat.eqb default_confidence (8 / 10) = true.
Proof.
  split; [|split; [|split; [|split]]].
  - intros d Hd. induction Hd as [|now s d _ IH] using reachable_ind.
    + intros i k Hk. cbn in Hk. by rewrite lookup_empty in Hk.
    + intros i k Hk.
      destruct (exec_knowledge_entries now s d) as [Hsub|(id & new & Heq & Ht & Hc)].
      * eapply IH, lookup_weaken; done.
      * rewrite Heq in Hk. destruct (decide (id = i)) as [->|Hne].
        -- rewrite lookup_insert_eq in Hk. injection Hk as <-.
           by apply checks_entry_checked.
        -- rewrite lookup_insert_ne in Hk by done. by eapply IH.
  - intros now rowid v d c Hv Hc. unfold insert_knowledge.
    assert (check_confidence (knowledge_entries.confidence (knowledge_of_values now v))
            = false) as ->.
    { cbn. rewrite Hv. cbn. unfold check_confidence. apply andb_false_iff. done. }
    rewrite andb_false_r. cbn [negb]. repeat case_match; eauto.
  - intros id set d old Hold Hc. unfold update_knowledge. rewrite Hold.
    assert (check_confidence (knowledge_entries.confidence (set old)) = false) as ->.
    { unfold check_confidence. apply andb_false_iff. done. }
    rewrite andb_false_r. cbn [negb]. case_match; eauto.
  - intros now rowid v d id d' Hv. unfold insert_knowledge.
    repeat case_match; intros [= <- <-].
    eexists. cbn. rewrite lookup_insert_eq. split; [done|]. cbn. by rewrite Hv.
  - reflexivity.
Qed.



(** ** The optimization queue *)




(** A statement leaves in bias_flags rows that were there, or writes one row
    that passes the table's [CHECK]s and shares its (knowledge_id, bias_type)
    with no other row. *)
Lemma exec_bias_flags now s d :
  bias_flags (exec now s d).2 ⊆ bias_flags d
  ∨ ∃ id new,
      bias_flags (exec now s d).2 = <[id := new]> (bias_flags d)
      ∧ check_bias_type (bias_flags.bias_type new) = true
      ∧ check_bias_severity (bias_flags.bias_severity new) = true
      ∧ ∀ j r, bias_flags d !! j = Some r → j ≠ id →
               ¬ (bias_flags.knowledge_id r = bias_flags.knowledge_id new
                  ∧ bias_flags.bias_type r = bias_flags.bias_type new).
Proof.
  destruct s; cbn [exec]; unfold_stmt;
    try (repeat case_match; cbn [snd]; left; reflexivity).
  - (* DeleteChannel *)
    left. destruct (channels d !! id); [|done].
    destruct (delete_channel_row id d) as [d'|] eqn:Hd; [|done]. cbn [snd].
    unfold delete_channel_row in Hd.
    apply (delete_rows_shrinks bias_flags) in Hd; [done|].
    intros i0 r0 d0 d0'. apply delete_video_row_bias_flags_subseteq.
  - (* UpdateVideo *)
    left. repeat case_match; try reflexivity.
    match goal with
    | H : video_au _ _ _ _ _ = Some _ |- _ => apply video_au_Some in H as (idx & ->)
    end. reflexivity.
  - (* DeleteVideo *)
    left. destruct (videos d !! id); [|done].
    destruct (delete_video_row id _ d) as [d'|] eqn:Hd; [|done].
    by apply delete_video_row_bias_flags_subseteq in Hd.
  - (* DeleteTranscript *)
    left. destruct (transcripts d !! id); [|done].
    destruct (delete_transcript_row id _ d) as [d'|] eqn:Hd; [|done].
    by apply delete_transcript_row_Some in Hd as (idx & _ & ->).
  - (* UpdateKnowledge *)
    left. repeat case_match; try reflexivity.
    match goal with
    | H : knowledge_au _ _ _ _ _ = Some _ |- _ =>
        apply knowledge_au_Some in H as (idx & ->)
    end. reflexivity.
  - (* DeleteKnowledge *)
    left. destruct (knowledge_entries d !! id); [|done].
    destruct (delete_knowledge_row id _ d) as [d'|] eqn:Hd; [|done].
    apply delete_knowledge_row_Some in Hd as (idx & _ & ->).
    cbn. apply map_filter_subseteq.
  - (* InsertBiasFlag *)
    repeat case_match; cbn [snd]; try (left; reflexivity).
    right. eexists _, _. split; [reflexivity|].
    match goal with
    | H : negb _ = false |- _ =>
        apply negb_false_iff in H; apply andb_true_iff in H as [? ?]
    end.
    split; [done|]. split; [done|].
    intros jj rr Hrr _ [Hk Ht].
    match goal with
    | H : any_row _ _ = false |- _ => pose proof (any_row_false _ _ _ _ H Hrr) as Hf
    end.
    cbn beta in Hf. apply andb_false_iff in Hf as [Hf|Hf];
      apply bool_decide_eq_false in Hf; done.
  - (* UpdateBiasFlag *)
    repeat case_match; cbn [snd]; try (left; reflexivity).
    right. eexists _, _. split; [reflexivity|].
    match goal with
    | H : negb _ = false |- _ =>
        apply negb_false_iff in H; apply andb_true_iff in H as [? ?]
    end.
    split; [done|]. split; [done|].
    intros jj rr Hrr Hne [Hk Ht].
    match goal with
    | H : any_row _ _ = false |- _ => pose proof (any_row_false _ _ _ _ H Hrr) as Hf
    end.
    cbn beta in Hf. rewrite (bool_decide_eq_true_2 _ Hne) in Hf. cbn [andb] in Hf.
    apply andb_false_iff in Hf as [Hf|Hf];
      apply bool_decide_eq_false in Hf; done.
  - (* DeleteBiasFlag *)
    left. destruct (bias_flags d !! id); [|done]. cbn. apply delete_subseteq.
Qed.

(** ** Bias flags *)


Lemma reachable_bias_flags d : reachable d → bias_unique d ∧ bias_checked d.
Proof.
  intros Hd. induction Hd as [|now s d _ [IHu IHc]] using reachable_ind.
  - split; intros i; intros; cbn in *; by rewrite lookup_empty in *.
  - destruct (exec_bias_flags now s d)
      as [Hsub|(n & new & Heq & Ht & Hs & Hfresh)].
    + split.
      * intros i j bi bj Hi Hj. eapply IHu; eapply lookup_weaken; done.
      * intros i b Hb. eapply IHc, lookup_weaken; done.
    + unfold bias_unique, bias_checked. rewrite Heq. split.
      * intros i j bi bj Hi Hj Hk Hty.
        destruct (decide (n = i)) as [Hi'|Hi']; destruct (decide (n = j)) as [Hj'|Hj'].
        -- congruence.
        -- subst i. rewrite lookup_insert_eq in Hi. injection Hi as <-.
           rewrite lookup_insert_ne in Hj by done.
           destruct (Hfresh j bj Hj ltac:(done)). done.
        -- subst j. rewrite lookup_insert_eq in Hj. injection Hj as <-.
           rewrite lookup_insert_ne in Hi by done.
           destruct (Hfresh i bi Hi ltac:(done)). done.
        -- rewrite lookup_insert_ne in Hi by done.
           rewrite lookup_insert_ne in Hj by done. by eapply IHu.
      * intros i b Hb. destruct (decide (n = i)) as [->|Hne].
        -- rewrite lookup_insert_eq in Hb. by injection Hb as <-.
        -- rewrite lookup_insert_ne in Hb by done. by eapply IHc.
Qed.

Lemma find_flag_unique d i old :
  bias_unique d → bias_flags d !! i = Some old →
  find_flag (bias_flags.knowledge_id old) (bias_flags.bias_type old) d = Some i.
Proof.
  intros Hu Hold. unfold find_flag.
  destruct (rows_where _ (bias_flags d)) as [|[j r] l] eqn:Hrows.
  - assert ((i, old) ∈ @nil (Z * bias_flags.row)) as Hin; [|by apply elem_of_nil in Hin].
    rewrite <- Hrows. apply elem_of_rows_where. split; [done|].
    apply andb_true_iff. split; by apply bool_decide_eq_true.
  - cbn. f_equal.
    assert ((j, r) ∈ (j, r) :: l) as Hin by apply list_elem_of_here.
    rewrite <- Hrows in Hin. apply elem_of_rows_where in Hin as [Hr Hp].
    apply andb_true_iff in Hp as [Hk%bool_decide_eq_true Ht%bool_decide_eq_true].
    by eapply Hu.
Qed.

(** C4. No two stored bias flags share their (knowledge_id, bias_type).
    A scan result for a pair that is already flagged, with another severity,
    updates that flag's row: no row is added, and the one row of the pair
    carries the new severity. *)
Theorem bias_flag_upsert :
  (∀ d, reachable d → bias_unique d)
  ∧ (∀ now v d i old,
       reachable d →
       bias_flags d !! i = Some old →
       bias_flags.knowledge_id old = bias_flags.knowledge_id' v →
       bias_flags.bias_type old = bias_flags.bias_type' v →
       check_bias_severity (default "medium" (bias_flags.bias_severity' v)) = true →
       upsert_bias_flag now v d
       = (Changed 1, set_bias_flags <[i := rescored v old]> d)
       ∧ dom (bias_flags (upsert_bias_flag now v d).2) = dom (bias_flags d)
       ∧ ∀ j b, bias_flags (upsert_bias_flag now v d).2 !! j = Some b →
                bias_flags.knowledge_id b = bias_flags.knowledge_id' v →
                bias_flags.bias_type b = bias_flags.bias_type' v →
                j = i
                ∧ bias_flags.bias_severity b
                  = default "medium" (bias_flags.bias_severity' v)).
Proof.
  split; [intros d Hd; by apply reachable_bias_flags|].
  intros now v d i old Hd Hold Hk Hty Hsev.
  destruct (reachable_bias_flags d Hd) as [Hu Hc].
  assert (upsert_bias_flag now v d
          = (Changed 1, set_bias_flags <[i := rescored v old]> d)) as Hup.
  { unfold upsert_bias_flag. rewrite <- Hk, <- Hty.
    rewrite (find_flag_unique d i old Hu Hold).
    unfold update_bias_flag. rewrite Hold.
    destruct (Hc i old Hold) as [Hct _].
    cbn [rescored bias_flags.bias_type bias_flags.bias_severity
         bias_flags.knowledge_id].
    rewrite Hct, Hsev. cbn [andb negb].
    destruct (any_row _ (bias_flags d)) eqn:Hany.
    - apply any_row_true in Hany as (j & r & Hr & Hp).
      apply andb_true_iff in Hp as [Hp Ht%bool_decide_eq_true].
      apply andb_true_iff in Hp as [Hne%bool_decide_eq_true Hkr%bool_decide_eq_true].
      destruct Hne. by eapply Hu.
    - by rewrite bool_decide_eq_true_2. }
  split; [exact Hup|]. rewrite Hup. cbn [snd set_bias_flags bias_flags].
  split.
  - apply dom_insert_lookup_L. by eexists.
  - intros j b Hb Hkb Htb.
    destruct (decide (i = j)) as [<-|Hne].
    + rewrite lookup_insert_eq in Hb. by injection Hb as <-.
    + rewrite lookup_insert_ne in Hb by done.
      destruct Hne. eapply Hu; [done..|congruence|congruence].
Qed.


(** ** Foreign keys hold in every database the statements build *)

Lemma is_Some_lookup_insert {R} (m : gmap Z R) (i k : Z) (x : R) :
  is_Some (m !! k) → is_Some (<[i := x]> m !! k).
Proof. intros Hk. apply lookup_insert_is_Some. destruct (decide (i = k)); auto. Qed.

Lemma delete_rows_preserves {R} (inv : db → Prop)
    (delete_row : Z → R → db → option db) (rows : list (Z * R)) (d d' : db) :
  (∀ i r d d', inv d → delete_row i r d = Some d' → inv d') →
  inv d → delete_rows delete_row rows d = Some d' → inv d'.
Proof.
  intros Hstep Hd. revert d'. induction rows as [|[i r] rows IH]; intros d' Hd'.
  - by injection Hd' as <-.
  - cbn in Hd'. apply bind_Some in Hd' as (d1 & Hd1 & Hd').
    eapply Hstep; [|exact Hd']. by apply IH.
Qed.

(** A video's cascade leaves no row without its parent. *)
Lemma delete_video_row_cascade_keys id old d d' :
  cascade_keys d → delete_video_row id old d = Some d' → cascade_keys d'.
Proof.
  intros (Ht & Hk & Hl & Hb) Hd. split; [|split; [|split]].
  - intros i t Hi.
    apply (lookup_delete_video_row_transcripts id old d d') in Hi as [Hi Hne]; [|done].
    rewrite (delete_video_row_videos _ _ _ _ Hd), lookup_delete_ne by done.
    by eapply Ht.
  - intros i k Hi.
    apply (lookup_delete_video_row_knowledge id old d d') in Hi as [Hi Hne]; [|done].
    rewrite (delete_video_row_videos _ _ _ _ Hd), lookup_delete_ne by done.
    by eapply Hk.
  - intros i l. rewrite (delete_video_row_processing_log _ _ _ _ Hd).
    intros [Hi Hne]%map_lookup_filter_Some. cbn in Hne.
    rewrite (delete_video_row_videos _ _ _ _ Hd), lookup_delete_ne by done.
    by eapply Hl.
  - intros i b. rewrite (delete_video_row_bias_flags _ _ _ _ Hd).
    intros [Hi Hnin]%lookup_foldr_filter_flags.
    destruct (Hb i b Hi) as [k Hkb]. exists k.
    apply (lookup_delete_video_row_knowledge id old d d'); [done|].
    split; [done|]. intros Heq. apply Hnin.
    apply list_elem_of_fmap. exists (bias_flags.knowledge_id b, k). split; [done|].
    apply elem_of_rows_where. split; [done|]. by apply bool_decide_eq_true.
Qed.

(** A channel's cascade leaves no row without its parent. *)
Lemma delete_channel_row_foreign_keys id d d' :
  foreign_keys d → delete_channel_row id d = Some d' → foreign_keys d'.
Proof.
  intros [Hv Hc] Hd. unfold delete_channel_row in Hd.
  pose proof (delete_rows_frame channels delete_video_row _ _ _
                delete_video_row_channels Hd) as Ech.
  pose proof (delete_rows_project videos delete_video_row
                (fun kv m => delete kv.1 m) _ _ _
                delete_video_row_videos Hd) as Evid.
  cbn [channels videos set_channels] in Ech, Evid.
  split.
  - intros i v. rewrite Evid, Ech, lookup_foldr_delete.
    destruct (decide _) as [|Hnin]; [done|]. intros Hi.
    rewrite lookup_delete_ne; [by eapply Hv|].
    intros Heq. apply Hnin. apply list_elem_of_fmap. exists (i, v). split; [done|].
    apply elem_of_rows_where. split; [done|]. by apply bool_decide_eq_true.
  - eapply (delete_rows_preserves cascade_keys); [| |exact Hd].
    + intros i r d0 d0'. apply delete_video_row_cascade_keys.
    + exact Hc.
Qed.

(** A row read from a table after an insert, an overwrite or a delete is the
    written row or a row that was there; a parent that was stored is still
    stored after an insert or an overwrite. *)
Ltac parent_stored :=
  repeat match goal with
         | |- is_Some (<[_ := _]> _ !! _) => apply is_Some_lookup_insert
         end;
  eauto.

Ltac child_row H :=
  first
    [ apply lookup_insert_Some in H as [[<- <-]|[? H]]
    | apply lookup_delete_Some in H as [? H]
    | apply map_lookup_filter_Some in H as [H ?]
    | idtac ].

Ltac project_db_in H :=
  cbn [snd channels videos transcripts knowledge_entries processing_log
       bias_flags optimization_queue knowledge_fts transcript_fts video_fts
       sqlite_sequence set_channels set_videos set_transcripts
       set_knowledge_entries set_processing_log set_bias_flags
       set_optimization_queue set_knowledge_fts set_transcript_fts
       set_video_fts set_sqlite_sequence bump_sequence
       knowledge_ai transcript_ai video_ai delete_bias_flag_row] in H.

Ltac each_key :=
  split; [|split; [|split; [|split]]];
  (let i := fresh "i" in let r := fresh "r" in let Hi := fresh "Hi" in
   intros i r Hi; project_db_in Hi; project_db; child_row Hi; parent_stored).

Lemma exec_foreign_keys now s d :
  foreign_keys d → foreign_keys (exec now s d).2.
Proof.
  intros Hfk. pose proof Hfk as (Hv & Ht & Hk & Hl & Hb).
  destruct s; cbn [exec]; unfold_stmt.
  - (* InsertChannel *)
    repeat case_match; try exact Hfk.
    each_key.
  - (* DeleteChannel *)
    destruct (channels d !! id); [|done].
    destruct (delete_channel_row id d) as [d'|] eqn:Hd; [|done].
    cbn [snd]. by eapply delete_channel_row_foreign_keys.
  - (* InsertVideo *)
    repeat case_match; try exact Hfk.
    each_key.
  - (* UpdateVideo *)
    destruct (videos d !! id) as [old|] eqn:Hold; [|done].
    repeat case_match; try exact Hfk.
    match goal with
    | H : video_au _ _ _ _ _ = Some _ |- _ => apply video_au_Some in H as (idx & ->)
    end.
    each_key.
    match goal with
    | H : _ || _ = true |- _ =>
        apply orb_true_iff in H as [H%bool_decide_eq_true|H%bool_decide_eq_true]
    end; [|done].
    match goal with H : _ = _ |- _ => rewrite H end. by eapply Hv.
  - (* DeleteVideo *)
    destruct (videos d !! id) as [old|]; [|done].
    destruct (delete_video_row id old d) as [d'|] eqn:Hd; [|done].
    cbn [snd]. split.
    + intros i v. rewrite (delete_video_row_videos _ _ _ _ Hd),
        (delete_video_row_channels _ _ _ _ Hd).
      intros [_ Hi]%lookup_delete_Some. by eapply Hv.
    + eapply delete_video_row_cascade_keys; [|exact Hd]. by destruct Hfk.
  - (* InsertTranscript *)
    repeat case_match; try exact Hfk.
    each_key.
  - (* UpdateTranscript *)
    destruct (transcripts d !! id) as [old|] eqn:Hold; [|done].
    repeat case_match; try exact Hfk.
    each_key.
    match goal with
    | H : _ || _ = true |- _ =>
        apply orb_true_iff in H as [H%bool_decide_eq_true|H%bool_decide_eq_true]
    end; [|done].
    match goal with H : _ = _ |- _ => rewrite H end. by eapply Ht.
  - (* DeleteTranscript *)
    destruct (transcripts d !! id) as [old|]; [|done].
    destruct (delete_transcript_row id old d) as [d'|] eqn:Hd; [|done].
    apply delete_transcript_row_Some in Hd as (idx & _ & ->).
    each_key.
  - (* InsertKnowledge *)
    repeat case_match; try exact Hfk.
    each_key.
  - (* UpdateKnowledge *)
    destruct (knowledge_entries d !! id) as [old|] eqn:Hold; [|done].
    repeat case_match; try exact Hfk.
    match goal with
    | H : knowledge_au _ _ _ _ _ = Some _ |- _ =>
        apply knowledge_au_Some in H as (idx & ->)
    end.
    each_key.
    match goal with
    | H : _ || _ = true |- _ =>
        apply orb_true_iff in H as [H%bool_decide_eq_true|H%bool_decide_eq_true]
    end; [|done].
    match goal with H : _ = _ |- _ => rewrite H end. by eapply Hk.
  - (* DeleteKnowledge *)
    destruct (knowledge_entries d !! id) as [old|]; [|done].
    destruct (delete_knowledge_row id old d) as [d'|] eqn:Hd; [|done].
    apply delete_knowledge_row_Some in Hd as (idx & _ & ->).
    each_key.
    destruct (Hb i r Hi) as [k Hkb]. exists k. by rewrite lookup_delete_ne.
  - (* InsertLog *)
    repeat case_match; try exact Hfk.
    each_key.
  - (* InsertBiasFlag *)
    repeat case_match; try exact Hfk.
    each_key.
  - (* UpdateBiasFlag *)
    destruct (bias_flags d !! id) as [old|] eqn:Hold; [|done].
    repeat case_match; try exact Hfk.
    each_key.
    match goal with
    | H : _ || _ = true |- _ =>
        apply orb_true_iff in H as [H%bool_decide_eq_true|H%bool_decide_eq_true]
    end; [|done].
    match goal with H : _ = _ |- _ => rewrite H end. by eapply Hb.
  - (* DeleteBiasFlag *)
    destruct (bias_flags d !! id) as [old|]; [|done].
    each_key.
  - (* InsertQueueItem *)
    repeat case_match; exact Hfk.
  - (* UpdateQueueItem *)
    repeat case_match; exact Hfk.
Qed.

(** Every database the statements build has its foreign keys intact. *)
Lemma reachable_foreign_keys d : reachable d → foreign_keys d.
Proof.
  intros Hd. induction Hd as [|now s d _ IH] using reachable_ind.
  - repeat split; intros i r Hi; cbn in Hi; by rewrite lookup_empty in Hi.
  - by apply exec_foreign_keys.
Qed.

(** ** The indexes over a history *)

Lemma run_synced (history : list (string * stmt)) (d : db) :
  Forall (fun p => covered_by_triggers p.2 = true) history →
  fts_synced d → fts_synced (run history d).
Proof.
  revert d. induction history as [|[now s] history IH]; intros d Hall Hd; [done|].
  apply Forall_cons in Hall as [Hs Hall]. cbn. apply IH; [done|].
  by apply exec_synced.
Qed.

Lemma empty_db_synced : fts_synced empty_db.
Proof.
  unfold fts_synced, index_of. cbn. by rewrite !map_to_list_empty.
Qed.

(** C1 at a transcript update. The sample database is in sync; rewriting
    the text of its transcript succeeds, and the index still holds the old
    text for that row: no trigger covers the update. *)
Theorem transcript_update_leaves_index_stale :
  fts_synced sample_db
  ∧ (update_transcript 1 (set_full_text "glass the ridge") sample_db).1 = Changed 1
  ∧ transcripts.full_text
      <$> transcripts (update_transcript 1 (set_full_text "glass the ridge")
                         sample_db).2 !! 1
    = Some "glass the ridge"
  ∧ transcript_fts (update_transcript 1 (set_full_text "glass the ridge")
                      sample_db).2
    = [(1, [Some "bugle early"])]
  ∧ ¬ fts_synced (update_transcript 1 (set_full_text "glass the ridge")
                    sample_db).2.
Proof.
  split; [|split; [|split; [|split]]].
  - apply run_synced; [|apply empty_db_synced]. by repeat constructor.
  - vm_compute; reflexivity.
  - vm_compute; reflexivity.
  - vm_compute; reflexivity.
  - intros (_ & Ht & _).
    assert (transcript_fts (update_transcript 1 (set_full_text "glass the ridge")
                              sample_db).2
            = [(1, [Some "bugle early"])]) as E1 by (vm_compute; reflexivity).
    assert (index_of transcript_indexed
              (transcripts (update_transcript 1 (set_full_text "glass the ridge")
                              sample_db).2)
            = [(1, [Some "glass the ridge"])]) as E2 by (vm_compute; reflexivity).
    rewrite E1, E2 in Ht. apply Permutation_singleton_r in Ht. discriminate Ht.
Qed.

(** ** Search round trip *)

Lemma search_app fts_match q idx1 idx2 :
  search fts_match q (idx1 ++ idx2)
  = search fts_match q idx1 ++ search fts_match q idx2.
Proof. unfold search. by rewrite filter_app, fmap_app. Qed.

Lemma search_nil_no_match fts_match q idx rowid cols :
  search fts_match q idx = [] → fts_match q cols = true → (rowid, cols) ∉ idx.
Proof.
  unfold search. intros Hnil Hm Hin.
  assert (rowid ∈ (filter (fun r => fts_match q r.2) idx).*1) as Hr.
  { apply list_elem_of_fmap. exists (rowid, cols). split; [done|].
    apply list_elem_of_filter. split; [cbn; by rewrite Hm|done]. }
  rewrite Hnil in Hr. by apply elem_of_nil in Hr.
Qed.

Lemma fts_remove_insert rowid cols idx :
  (rowid, cols) ∉ idx → fts_remove rowid cols (fts_insert rowid cols idx) = Some idx.
Proof.
  unfold fts_insert. induction idx as [|r idx IH]; intros Hnin; cbn.
  - by rewrite decide_True.
  - apply not_elem_of_cons in Hnin as [Hne Hnin].
    rewrite decide_False by done. by rewrite IH.
Qed.

(** The delete that follows an insert finds what the insert indexed. *)
Lemma fts_delete_insert rowid cols idx :
  (rowid, cols) ∉ idx →
  fts_delete rowid cols (fts_insert rowid cols idx) = Some idx.
Proof. intros Hnin. unfold fts_delete. by rewrite fts_remove_insert. Qed.

Lemma rows_where_nil {R} (P : R → bool) (tbl : gmap Z R) :
  (∀ i r, tbl !! i = Some r → P r = false) → rows_where P tbl = [].
Proof.
  intros Hall. destruct (rows_where P tbl) as [|[i r] l] eqn:Hrows; [done|].
  assert ((i, r) ∈ rows_where P tbl) as Hin by (rewrite Hrows; apply list_elem_of_here).
  apply elem_of_rows_where in Hin as [Hl HP]. rewrite (Hall i r Hl) in HP. done.
Qed.

Lemma search_after_insert fts_match q rowid cols idx :
  fts_match q cols = true → rowid ∈ search fts_match q (fts_insert rowid cols idx).
Proof.
  intros Hm. unfold fts_insert. rewrite search_app. apply elem_of_app. right.
  unfold search. rewrite filter_cons_True by (cbn; by rewrite Hm).
  cbn. apply list_elem_of_here.
Qed.

(** C2. Take a text that matches no row of an index.  Inserting a source
    row whose indexed columns the text matches makes a search for the text
    return the row's id; deleting the row again leaves the search without
    that id.  This holds for knowledge entries, transcripts and videos; a
    video is deleted with the rows it owns, so the database it is inserted
    in is taken with its foreign keys intact. *)
Theorem search_round_trip :
  ∀ (fts_match : string → list (option string) → bool) (q now : string)
    (rowid : option Z) (d : db),
    (∀ v id d1,
       search fts_match q (knowledge_fts d) = [] →
       insert_knowledge now rowid v d = (Inserted id, d1) →
       fts_match q [Some (knowledge_entries.title' v);
                    Some (knowledge_entries.content' v);
                    knowledge_entries.source_quote' v] = true →
       id ∈ search fts_match q (knowledge_fts d1)
       ∧ id ∉ search fts_match q (knowledge_fts (delete_knowledge id d1).2))
    ∧ (∀ v id d1,
         search fts_match q (transcript_fts d) = [] →
         insert_transcript now rowid v d = (Inserted id, d1) →
         fts_match q [Some (transcripts.full_text' v)] = true →
         id ∈ search fts_match q (transcript_fts d1)
         ∧ id ∉ search fts_match q (transcript_fts (delete_transcript id d1).2))
    ∧ (∀ v id d1,
         foreign_keys d →
         search fts_match q (video_fts d) = [] →
         insert_video now rowid v d = (Inserted id, d1) →
         fts_match q [Some (videos.title' v); videos.description' v] = true →
         id ∈ search fts_match q (video_fts d1)
         ∧ id ∉ search fts_match q (video_fts (delete_video id d1).2)).
Proof.
  intros fts_match q now rowid d. split; [|split].
  - intros v id d1 Hnil Hins Hm. unfold insert_knowledge in Hins.
    repeat case_match; try discriminate Hins. injection Hins as <- <-.
    split.
    + project_db. by apply search_after_insert.
    + unfold delete_knowledge. project_db. rewrite lookup_insert_eq.
      unfold delete_knowledge_row, knowledge_ad. project_db.
      cbn [knowledge_of_values knowledge_entries.title knowledge_entries.content
           knowledge_entries.source_quote].
      rewrite fts_delete_insert by (by eapply search_nil_no_match).
      project_db. cbn [mbind option_bind]. project_db.
      rewrite Hnil. apply not_elem_of_nil.
  - intros v id d1 Hnil Hins Hm. unfold insert_transcript in Hins.
    repeat case_match; try discriminate Hins. injection Hins as <- <-.
    split.
    + project_db. by apply search_after_insert.
    + unfold delete_transcript. project_db. rewrite lookup_insert_eq.
      unfold delete_transcript_row, transcript_ad. project_db.
      cbn [transcript_of_values transcripts.full_text].
      rewrite fts_delete_insert by (by eapply search_nil_no_match).
      project_db. cbn [mbind option_bind]. project_db.
      rewrite Hnil. apply not_elem_of_nil.
  - intros v id d1 (_ & Ht & Hk & _) Hnil Hins Hm. unfold insert_video in Hins.
    repeat case_match; try discriminate Hins. injection Hins as <- <-.
    match goal with
    | H : ¬ is_Some (videos d !! _) |- _ => rename H into Hfresh
    end.
    split.
    + project_db. by apply search_after_insert.
    + unfold delete_video. project_db. rewrite lookup_insert_eq.
      unfold delete_video_row. project_db.
      rewrite rows_where_nil.
      2:{ intros i0 t0 Hi. apply bool_decide_eq_false. intros Heq.
          apply Hfresh. rewrite <- Heq. by eapply Ht. }
      cbn [delete_rows foldr mbind option_bind]. project_db.
      rewrite rows_where_nil.
      2:{ intros i0 k0 Hi. apply bool_decide_eq_false. intros Heq.
          apply Hfresh. rewrite <- Heq. by eapply Hk. }
      cbn [delete_rows foldr mbind option_bind]. unfold video_ad. project_db.
      cbn [video_of_values videos.title videos.description].
      rewrite fts_delete_insert by (by eapply search_nil_no_match).
      cbn [mbind option_bind]. project_db.
      rewrite Hnil. apply not_elem_of_nil.
Qed.

End Engine.

(** ** The statements at work on the sample database *)


Lemma sample_db_reachable : reachable fts5_corrupt_vtab (sample_db fts5_corrupt_vtab).
Proof. by eexists. Qed.



(** Once the text of the sample transcript has been rewritten, its index
    row is stale: on this engine the delete of the sample video is aborted
    by [transcript_ad], and the database is the one before. *)
Lemma delete_video_stale_index_aborts :
  delete_video fts5_corrupt_vtab 1
    (update_transcript 1 (set_full_text "glass the ridge")
       (sample_db fts5_corrupt_vtab)).2
  = (Failed SQLITE_CORRUPT_VTAB,
     (update_transcript 1 (set_full_text "glass the ridge")
        (sample_db fts5_corrupt_vtab)).2).
Proof. vm_compute; reflexivity. Qed.

(** The sample video's id cannot be stored twice. *)
Lemma integrity_violation_aborts_witness :
  insert_video "10:00" None (sample_video "dQw4" "Elk calling, again")
    (sample_db fts5_corrupt_vtab)
  = (Failed CONSTRAINT_UNIQUE, sample_db fts5_corrupt_vtab).
Proof.
  destruct (integrity_violation_aborts fts5_corrupt_vtab "10:00" None
              (sample_db fts5_corrupt_vtab)) as (Hvideo & _).
  destruct (Hvideo (sample_video "dQw4" "Elk calling, again") 1
              (video_of_values "09:01" (sample_video "dQw4" "Elk calling basics"))
              ltac:(vm_compute; reflexivity) ltac:(reflexivity)) as [e He].
  rewrite He. f_equal.
  assert ((insert_video "10:00" None (sample_video "dQw4" "Elk calling, again")
             (sample_db fts5_corrupt_vtab)).1 = Failed CONSTRAINT_UNIQUE) as H1
    by (vm_compute; reflexivity).
  rewrite He in H1. exact H1.
Defined.

(** The sample entry was stored without a confidence and holds the default;
    storing it with confidence 1.5 is refused. *)
Lemma knowledge_entry_checks_witness :
  (∀ k, knowledge_entries (sample_db fts5_corrupt_vtab) !! 1 = Some k →
        entry_checked k)
  ∧ ∃ e, insert_knowledge "10:00" None (sample_entry 1 "Too sure" (Some 1.5%float))
           (sample_db fts5_corrupt_vtab)
         = (Failed e, sample_db fts5_corrupt_vtab).
Proof.
  destruct (knowledge_entry_checks fts5_corrupt_vtab) as (Hinv & Hins & _).
  split.
  - intros k Hk.
    exact (Hinv (sample_db fts5_corrupt_vtab) sample_db_reachable 1 k Hk).
  - apply (Hins "10:00" None (sample_entry 1 "Too sure" (Some 1.5%float))
             (sample_db fts5_corrupt_vtab) 1.5%float eq_refl).
    right. reflexivity.
Defined.


(** A queue that has used its last rowid takes no further item. *)
Lemma enqueue_full_queue_refused :
  enqueue fts5_corrupt_vtab
    (fun _ _ target _ _ => [DeleteKnowledge (default 0 target)])
    "10:01" "delete_entry" "destructive" "knowledge_entry" (Some 1)
    "entry repeats another" None
    (insert_queue_item "10:00" (Some 9223372036854775807) (sample_item None)
       (sample_db fts5_corrupt_vtab)).2
  = (Failed SQLITE_FULL,
     (insert_queue_item "10:00" (Some 9223372036854775807) (sample_item None)
        (sample_db fts5_corrupt_vtab)).2).
Proof. vm_compute; reflexivity. Qed.

(** Scanning the sample entry again, now with severity high for the bias
    type it is already flagged with, rewrites flag 1 and adds no row. *)
Lemma bias_flag_upsert_witness :
  upsert_bias_flag "10:00" (sample_flag 1 "sponsored" (Some "high"))
    (sample_db fts5_corrupt_vtab)
  = (Changed 1,
     set_bias_flags
       <[1 := rescored (sample_flag 1 "sponsored" (Some "high"))
                (bias_flag_of_values "09:05" (sample_flag 1 "sponsored" None))]>
       (sample_db fts5_corrupt_vtab)).
Proof.
  destruct (bias_flag_upsert fts5_corrupt_vtab) as (_ & Hupsert).
  exact (proj1 (Hupsert "10:00" (sample_flag 1 "sponsored" (Some "high"))
                  (sample_db fts5_corrupt_vtab) 1
                  (bias_flag_of_values "09:05" (sample_flag 1 "sponsored" None))
                  sample_db_reachable
                  ltac:(vm_compute; reflexivity)
                  eq_refl eq_refl eq_refl)).
Defined.

(** With a matcher that looks for the query among the column texts: a new
    entry titled "Wind check" is found under that title, and is not found
    once it is deleted; the same for a new video titled "Wallow stalk". *)
Lemma search_round_trip_witness :
  (2 ∈ search (fun q cols => bool_decide (Some q ∈ cols)) "Wind check"
         (knowledge_fts
            (insert_knowledge "10:00" None (sample_entry 1 "Wind check" None)
               (sample_db fts5_corrupt_vtab)).2)
   ∧ 2 ∉ search (fun q cols => bool_decide (Some q ∈ cols)) "Wind check"
           (knowledge_fts
              (delete_knowledge fts5_corrupt_vtab 2
                 (insert_knowledge "10:00" None (sample_entry 1 "Wind check" None)
                    (sample_db fts5_corrupt_vtab)).2).2))
  ∧ (2 ∈ search (fun q cols => bool_decide (Some q ∈ cols)) "Wallow stalk"
           (video_fts
              (insert_video "10:00" None (sample_video "xK3q" "Wallow stalk")
                 (sample_db fts5_corrupt_vtab)).2)
     ∧ 2 ∉ search (fun q cols => bool_decide (Some q ∈ cols)) "Wallow stalk"
             (video_fts
                (delete_video fts5_corrupt_vtab 2
                   (insert_video "10:00" None (sample_video "xK3q" "Wallow stalk")
                      (sample_db fts5_corrupt_vtab)).2).2)).
Proof.
  split.
  - destruct (search_round_trip fts5_corrupt_vtab
                (fun q cols => bool_decide (Some q ∈ cols))
                "Wind check" "10:00" None (sample_db fts5_corrupt_vtab))
      as (Hentry & _).
    assert ((insert_knowledge "10:00" None (sample_entry 1 "Wind check" None)
               (sample_db fts5_corrupt_vtab)).1 = Inserted 2) as Hid
      by (vm_compute; reflexivity).
    destruct (insert_knowledge "10:00" None (sample_entry 1 "Wind check" None)
                (sample_db fts5_corrupt_vtab)) as [o d1] eqn:Hins.
    cbn [fst] in Hid. cbn [snd]. rewrite Hid in Hins.
    exact (Hentry (sample_entry 1 "Wind check" None) 2 d1
             ltac:(vm_compute; reflexivity) Hins ltac:(vm_compute; reflexivity)).
  - destruct (search_round_trip fts5_corrupt_vtab
                (fun q cols => bool_decide (Some q ∈ cols))
                "Wallow stalk" "10:00" None (sample_db fts5_corrupt_vtab))
      as (_ & _ & Hvideo).
    assert ((insert_video "10:00" None (sample_video "xK3q" "Wallow stalk")
               (sample_db fts5_corrupt_vtab)).1 = Inserted 2) as Hid
      by (vm_compute; reflexivity).
    destruct (insert_video "10:00" None (sample_video "xK3q" "Wallow stalk")
                (sample_db fts5_corrupt_vtab)) as [o d1] eqn:Hins.
    cbn [fst] in Hid. cbn [snd]. rewrite Hid in Hins.
    exact (Hvideo (sample_video "xK3q" "Wallow stalk") 2 d1
             (reachable_foreign_keys fts5_corrupt_vtab _ sample_db_reachable)
             ltac:(vm_compute; reflexivity) Hins ltac:(vm_compute; reflexivity)).
Defined.

End Schema.
